(** * ESP32-Clock: the PCA9685 driver, its servo layer and the digit renderer

    A shallow embedding of [clock/pca9685.py], [clock/clock.py] and
    [clock/ds3231.py].

    - Python integers are [Z]; [divmod], [%], [&] and [pow] are [Z.div],
      [Z.modulo], [Z.land] and [Z.pow] (Python's floor division is Rocq's).
    - [bytes] objects, tuples and lists of byte values are [list Z].
    - The I2C peripheral ([machine.SoftI2C]) and [time.sleep_us] are outside the
      repository.  They are modelled by a recording register file: a finite map
      from (device address, register) to the byte stored there, together with
      the list of transactions issued so far.
    - Methods that touch the bus or raise are computations in a state and
      exception monad over that register file.  An exception keeps the state
      reached when it was raised: nothing is rolled back.
    - The two divisions of the frequency property are computed over the
      rationals and [round] is round-half-to-even.  Both quotients have the
      form 390625 / (64 * n) for a positive integer n; since 390625 is odd
      such a quotient is never an integer plus one half, and it stays further
      from such a point than the precision of a binary float at that
      magnitude, so rounding the float and rounding the rational agree. *)

From Stdlib Require Import ZArith QArith Qround List Lia.
From stdpp Require Import base decidable option list strings gmap.

Local Open Scope Z_scope.

(** ** Exceptions *)

(** The [raise ValueError(...)] sites of the source, one tag per message. *)
Inductive value_error : Type :=
| InvalidFrequency      (* "Invalid PWM frequency" *)
| InvalidReadLength     (* "Invalid memory read length" *)
| ByteOutOfRange        (* "Byte value out of range" *)
| UnexpectedDataType    (* "Unexpected data type" *)
| InvalidPWM.           (* "attempted to set invalid PWM" *)

Inductive exn : Type :=
| ValueError (why : value_error)
| IndexError
| AttributeError
| NotImplementedError
| StructError.

(** ** The recorded bus *)

Inductive event : Type :=
| ReadFromMem (addr memaddr nbytes : Z)
| WriteToMem (addr memaddr : Z) (buf : list Z)
| SleepUs (us : Z).

Record hw : Type := Hw {
  regs : gmap (Z * Z) Z;
  trace : list event
}.

Definition peek (h : hw) (addr memaddr : Z) : Z :=
  default 0 (regs h !! (addr, memaddr)).

Fixpoint poke (m : gmap (Z * Z) Z) (addr memaddr : Z) (buf : list Z)
  : gmap (Z * Z) Z :=
  match buf with
  | [] => m
  | b :: rest => poke (<[(addr, memaddr) := b]> m) addr (memaddr + 1) rest
  end.

(** ** The state and exception monad *)

Definition M (A : Type) : Type := hw -> (exn + A) * hw.

Definition ret {A} (a : A) : M A := fun h => (inr a, h).
Definition raise {A} (e : exn) : M A := fun h => (inl e, h).
Definition bind {A B} (m : M A) (k : A -> M B) : M B :=
  fun h => match m h with
           | (inl e, h') => (inl e, h')
           | (inr a, h') => k a h'
           end.
Definition lift {A} (r : exn + A) : M A :=
  match r with inl e => raise e | inr a => ret a end.

Notation "x <- m ;; k" := (bind m (fun x => k))
  (at level 100, m at next level, right associativity).
Notation "m ;;; k" := (bind m (fun _ => k))
  (at level 100, right associativity).

(** [for x in l: body(x)] *)
Fixpoint for_each {A} (l : list A) (body : A -> M unit) : M unit :=
  match l with
  | [] => ret tt
  | x :: rest => body x ;;; for_each rest body
  end.

(** The bytes a read transaction returns, and the register file after it. *)
Definition bus_data (h : hw) (addr memaddr nbytes : Z) : list Z :=
  map (fun i => peek h addr (memaddr + i)) (seqZ 0 nbytes).

Definition bus_read (h : hw) (addr memaddr nbytes : Z) : hw :=
  Hw (regs h) (trace h ++ [ReadFromMem addr memaddr nbytes]).

(** [i2c.readfrom_mem(addr, memaddr, nbytes)] *)
Definition readfrom_mem (addr memaddr nbytes : Z) : M (list Z) :=
  fun h => (inr (bus_data h addr memaddr nbytes),
            bus_read h addr memaddr nbytes).

(** The register file after one write transaction. *)
Definition bus_write (h : hw) (addr memaddr : Z) (buf : list Z) : hw :=
  Hw (poke (regs h) addr memaddr buf)
     (trace h ++ [WriteToMem addr memaddr buf]).

(** [i2c.writeto_mem(addr, memaddr, buf)] *)
Definition writeto_mem (addr memaddr : Z) (buf : list Z) : M unit :=
  fun h => (inr tt, bus_write h addr memaddr buf).

(** [sleep_us(us)] *)
Definition sleep_us (us : Z) : M unit :=
  fun h => (inr tt, Hw (regs h) (trace h ++ [SleepUs us])).

(** ** Python built-ins used by the source *)

(** [l[i]]: a negative index counts from the end; [None] is [IndexError]. *)
Definition py_getitem {A} (l : list A) (i : Z) : option A :=
  let n := Z.of_nat (length l) in
  if decide (i < 0)
  then if decide (- n <= i) then l !! Z.to_nat (n + i) else None
  else l !! Z.to_nat i.

(** [round(x)] on a rational: to the nearest integer, ties to the even one. *)
Definition py_round (q : Q) : Z :=
  let f := Qfloor q in
  match Qcompare (q - inject_Z f) (1 # 2) with
  | Lt => f
  | Gt => f + 1
  | Eq => if Z.even f then f else f + 1
  end.

(** [ustruct.pack("<2H", a, b)]: two 16-bit counts, low byte first. *)
Definition pack_2H (a b : Z) : list Z :=
  [Z.land a 255; Z.land (Z.shiftr a 8) 255;
   Z.land b 255; Z.land (Z.shiftr b 8) 255].

(** [ustruct.unpack("<2H", data)] *)
Definition unpack_2H (data : list Z) : exn + (Z * Z) :=
  match data with
  | [a0; a1; b0; b1] =>
      inr (Z.lor a0 (Z.shiftl a1 8), Z.lor b0 (Z.shiftl b1 8))
  | _ => inl StructError
  end.

(** [ustruct.unpack(f"<{length}B", data)]: the format names [length] bytes. *)
Definition unpack_B (length : Z) (data : list Z) : exn + list Z :=
  if decide (0 <= length /\ Z.of_nat (List.length data) = length)
  then inr data else inl StructError.

(** ** Objects *)

(** A board object.  [PCA9685(i2c, address)] has an address only; a
    [ServoController] adds [min_duty] and [max_duty]. *)
Inductive board : Type :=
| PCA9685_board (address : Z)
| ServoController_board (address min_duty max_duty : Z).

Inductive pin_class : Type := PWMPin_class | ServoPin_class.

Record pin : Type := Pin {
  cls : pin_class;
  parent : board;
  index : Z
}.

(** The argument of [write_memory]: [bytes | tuple | list], or anything else. *)
Inductive values : Type :=
| Bytes (data : list Z)
| Tuple (items : list Z)
| PyList (items : list Z)
| Other.

(** The result of [read_memory]: an unpacked tuple or the raw buffer. *)
Inductive readout : Type :=
| Unpacked (items : list Z)
| Raw (data : list Z).

Module PCA9685.

Definition address (self : board) : Z :=
  match self with
  | PCA9685_board a => a
  | ServoController_board a _ _ => a
  end.

Definition min_duty (self : board) : exn + Z :=
  match self with
  | PCA9685_board _ => inl AttributeError
  | ServoController_board _ lo _ => inr lo
  end.

Definition max_duty (self : board) : exn + Z :=
  match self with
  | PCA9685_board _ => inl AttributeError
  | ServoController_board _ _ hi => inr hi
  end.

Definition read_memory (self : board) (memory_address length : Z)
           (unpack : bool) : M readout :=
  if decide (length = 1 \/ length mod 2 = 0) then
    data <- readfrom_mem (address self) memory_address length ;;
    if unpack then
      items <- lift (unpack_B length data) ;;
      ret (Unpacked items)
    else ret (Raw data)
  else raise (ValueError InvalidReadLength).

(** The loop over [values] that checks each one is a byte. *)
Fixpoint check_bytes (items : list Z) : M unit :=
  match items with
  | [] => ret tt
  | value :: rest =>
      if decide (0 <= value <= 255) then check_bytes rest
      else raise (ValueError ByteOutOfRange)
  end.

Definition write_memory (self : board) (memory_address : Z) (vals : values)
  : M unit :=
  data <- match vals with
          | Bytes data => ret data
          | Tuple items | PyList items => check_bytes items ;;; ret items
          | Other => raise (ValueError UnexpectedDataType)
          end ;;
  writeto_mem (address self) memory_address data.

Definition _reset (self : board) : M unit :=
  write_memory self 0 (PyList [0]).

(** [round(25_000_000 / (4096 * (scale + 1)))] *)
Definition frequency_of_scale (scale : Z) : Z :=
  py_round (inject_Z 25000000 / inject_Z (4096 * (scale + 1))).

(** [round(25_000_000 / (4096.0 * frequency))] *)
Definition scale_of_frequency (frequency : Z) : Z :=
  py_round (inject_Z 25000000 / (inject_Z 4096 * inject_Z frequency)).

(** The [frequency] property. *)
Definition frequency (self : board) : M Z :=
  r <- read_memory self 254 1 true ;;
  match r with
  | Unpacked items =>
      match py_getitem items 0 with
      | Some scale => ret (frequency_of_scale scale)
      | None => raise IndexError
      end
  | Raw data =>
      match py_getitem data 0 with
      | Some scale => ret (frequency_of_scale scale)
      | None => raise IndexError
      end
  end.

(** The [frequency] setter. *)
Definition set_frequency (self : board) (frequency : Z) : M unit :=
  if decide (24 <= frequency <= 1526) then
    let scale := scale_of_frequency frequency in
    write_memory self 0 (PyList [16]) ;;;
    write_memory self 254 (PyList [scale]) ;;;
    write_memory self 0 (PyList [0]) ;;;
    sleep_us 500 ;;;
    write_memory self 0 (PyList [161])
  else raise (ValueError InvalidFrequency).

(** [PCA9685.__init__] *)
Definition init (address : Z) : M board :=
  let self := PCA9685_board address in
  _reset self ;;; ret self.

End PCA9685.

Module ServoController.

(** [ServoController.__init__] *)
Definition init (address frequency min_duty max_duty : Z) : M board :=
  let self := ServoController_board address min_duty max_duty in
  PCA9685._reset self ;;;
  PCA9685.set_frequency self frequency ;;;
  ret self.

End ServoController.

Module ServoPin.

(** [min(self.parent.max_duty, max(self.parent.min_duty, value))] *)
Definition _duty_bound (self : pin) (value : Z) : exn + Z :=
  match PCA9685.min_duty (parent self), PCA9685.max_duty (parent self) with
  | inr lo, inr hi => inr (Z.min hi (Z.max lo value))
  | inl e, _ => inl e
  | _, inl e => inl e
  end.

End ServoPin.

Module PWMPin.

(** [self.address = 0x06 + (4 * self.index)] *)
Definition address (self : pin) : Z := 6 + 4 * index self.

(** The [pwm] property. *)
Definition pwm (self : pin) : M (Z * Z) :=
  r <- PCA9685.read_memory (parent self) (address self) 4 false ;;
  match r with
  | Raw data => lift (unpack_2H data)
  | Unpacked items => lift (unpack_2H items)
  end.

Definition set_pwm (self : pin) (on off : Z) : M unit :=
  if decide ((0 <= on <= 4095) /\ (0 <= off <= 4096)) then
    let data := pack_2H on off in
    PCA9685.write_memory (parent self) (address self) (Bytes data)
  else raise (ValueError InvalidPWM).

(** The base class has no bound: it raises [NotImplementedError]. *)
Definition _duty_bound (self : pin) (value : Z) : exn + Z :=
  inl NotImplementedError.

(** [self._duty_bound(value)], resolved by the class of the pin. *)
Definition call_duty_bound (self : pin) (value : Z) : exn + Z :=
  match cls self with
  | PWMPin_class => _duty_bound self value
  | ServoPin_class => ServoPin._duty_bound self value
  end.

(** The [duty] property. *)
Definition duty (self : pin) : M Z :=
  counts <- pwm self ;;
  let '(on, off) := counts in
  if decide (on = 0 /\ off = 4096) then ret 0
  else if decide (on = 4096 /\ off = 0) then ret 4095
  else ret off.

(** The [duty] setter. *)
Definition set_duty (self : pin) (value : Z) : M unit :=
  value <- match call_duty_bound self value with
           | inr bounded => ret bounded
           | inl NotImplementedError => ret value
           | inl e => raise e
           end ;;
  if decide (value = 0) then set_pwm self 0 4096
  else if decide (value = 4095) then set_pwm self 4096 0
  else set_pwm self 0 value.

End PWMPin.

(** [self.pins]: sixteen pins of the class the board creates. *)
Definition pins (self : board) : list pin :=
  let c := match self with
           | PCA9685_board _ => PWMPin_class
           | ServoController_board _ _ _ => ServoPin_class
           end in
  map (fun i => Pin c self i) (seqZ 0 16).

(** [bits_representation]: the mask of the numeral at each index. *)
Definition bits_representation : list Z :=
  [63; 6; 91; 79; 102; 109; 125; 7; 127; 111].

Module Segment.

Record t : Type := Make {
  board_of : board;
  _duties : list (Z * Z)
}.

(** [enumerate(range(7))] *)
Definition ones : list (Z * Z) :=
  map (fun i => (i, i)) (seqZ 0 7).

(** [enumerate(range(7, 14))] *)
Definition tens : list (Z * Z) :=
  map (fun i => (i, 7 + i)) (seqZ 0 7).

Definition duties (self : t) (p : Z) : exn + (Z * Z) :=
  match py_getitem (_duties self) p with
  | Some (off, on) => inr (off, on)
  | None =>
      match PCA9685.min_duty (board_of self),
            PCA9685.max_duty (board_of self) with
      | inr lo, inr hi => inr (lo, hi)
      | inl e, _ => inl e
      | _, inl e => inl e
      end
  end.

(** The body shared by the two loops of [write], for the digit [digit]. *)
Definition write_pin (self : t) (digit : Z) (ip : Z * Z) : M unit :=
  let '(i, p) := ip in
  pair <- lift (duties self p) ;;
  let '(off, on) := pair in
  match py_getitem (pins (board_of self)) p with
  | None => raise IndexError
  | Some the_pin =>
      match py_getitem bits_representation digit with
      | None => raise IndexError
      | Some bits =>
          if decide (Z.land bits (2 ^ i) <> 0)
          then PWMPin.set_duty the_pin on
          else PWMPin.set_duty the_pin off
      end
  end.

Definition write (self : t) (number : Z) : M unit :=
  let tens_digit := number / 10 in
  let ones_digit := number mod 10 in
  for_each ones (write_pin self ones_digit) ;;;
  for_each tens (write_pin self tens_digit).

End Segment.

(** ** Small runs of the model *)

Definition hw0 : hw := Hw ∅ [].
Definition servo_board : board := ServoController_board 64 180 500.
Definition plain_board : board := PCA9685_board 64.


(** ** What the claims speak about *)

(** The transaction by which a pin receives the count pair [(on, off)]. *)
Definition pwm_write (self : pin) (on off : Z) : event :=
  WriteToMem (PCA9685.address (parent self)) (PWMPin.address self)
             (pack_2H on off).

(** The pair of duties a servo channel uses: the configured one, or the
    bounds of the board when the list has none at that index. *)
Definition servo_pair (lo hi : Z) (configured : list (Z * Z)) (p : Z)
  : Z * Z :=
  default (lo, hi) (py_getitem configured p).

(** The transactions of one digit place: for each (index, channel), the
    bounded on-duty when the bit of the mask is set, else the bounded
    off-duty, written as the pair (0, duty). *)
Definition place_events (a lo hi : Z) (configured : list (Z * Z))
           (bits : Z) (place : list (Z * Z)) : list event :=
  map (fun ip =>
         let pair := servo_pair lo hi configured (snd ip) in
         let d := if decide (Z.land bits (2 ^ fst ip) <> 0)
                  then snd pair else fst pair in
         WriteToMem a (6 + 4 * snd ip) (pack_2H 0 (Z.min hi (Z.max lo d))))
      place.

(** The write of duty [d] to channel [ch] of the board at address [a]. *)
Definition channel_write (a : Z) (chd : Z * Z) : event :=
  WriteToMem a (6 + 4 * fst chd) (pack_2H 0 (snd chd)).

(** The test that the prescaler computed for [f] is an integer nearest to
    25_000_000 / (4096 * f), and lies between 4 and 254. *)
Definition scale_ok (f : Z) : bool :=
  let s := PCA9685.scale_of_frequency f in
  (2 * Z.abs (25000000 - 4096 * f * s) <? 4096 * f)
  && (4 <=? s) && (s <=? 254).

(** The frequency read back from the prescaler that setting [f] stores. *)
Definition readback (f : Z) : Z :=
  PCA9685.frequency_of_scale (PCA9685.scale_of_frequency f).

Definition readback_ok (f : Z) : bool :=
  (24 <=? readback f) && (readback f <=? 1221).

(** The transactions of a successful frequency change, on the board at [a]. *)
Definition frequency_events (a scale : Z) : list event :=
  [WriteToMem a 0 [16]; WriteToMem a 254 [scale]; WriteToMem a 0 [0];
   SleepUs 500; WriteToMem a 0 [161]].

(** A clock face on the default servo board with no configured duties. *)
Definition bare_face : Segment.t := Segment.Make servo_board [].

(** ** The DS3231 clock board ([clock/ds3231.py]) *)

(** The errors of [ds3231.py]: its two [raise ValueError(...)] sites, the
    [ValueError] of [bytes([x])] for x outside 0..255, the [AttributeError]
    of an attribute that [__init__] never assigned, and the [IndexError] of
    [byte[0]] on an empty buffer. *)
Inductive ds_error : Type :=
| HourOutOfRange        (* "Hour must be between 0 and 23." *)
| MinuteOutOfRange      (* "Minute must be between 0 and 59." *)
| BytesOutOfRange       (* bytes must be in range(0, 256) *)
| NoSuchAttribute
| EmptyBuffer.

Module DS3231.

(** [DS3231(i2c, address)]; the bus is the recorded register file. *)
Record t : Type := Make { address : Z }.

(** The attributes that [__init__] assigns: [self.i2c] and [self.address]. *)
Definition attributes : list string := ["i2c"; "address"]%string.

(** [self.<name>]: an attribute that was never assigned is an error. *)
Definition getattr (name : string) : ds_error + unit :=
  if decide (name ∈ attributes) then inr tt else inl NoSuchAttribute.

Definition _decodeByte (byte : list Z) : ds_error + Z :=
  match py_getitem byte 0 with
  | Some b0 =>
      let tens := Z.shiftr b0 4 * 10 in
      let ones := Z.land b0 15 in
      inr (tens + ones)
  | None => inl EmptyBuffer
  end.

Definition _encodeByte (num : Z) : ds_error + list Z :=
  let tens := num / 10 in
  let ones := num mod 10 in
  let b := Z.shiftl tens 4 + ones in
  if decide (0 <= b <= 255) then inr [b] else inl BytesOutOfRange.

(** A getter: [_decodeByte(self.i2c.readfrom_mem(self.address, reg, 1))]. *)
Definition read_field (self : t) (reg : Z) (h : hw) : (ds_error + Z) * hw :=
  match getattr "i2c" with
  | inl e => (inl e, h)
  | inr _ =>
      (_decodeByte (bus_data h (address self) reg 1),
       bus_read h (address self) reg 1)
  end.

Definition hour (self : t) : hw -> (ds_error + Z) * hw := read_field self 2.
Definition minute (self : t) : hw -> (ds_error + Z) * hw := read_field self 1.
Definition second (self : t) : hw -> (ds_error + Z) * hw := read_field self 0.

(** The tail of a setter:
    [self._i2c.writeto_mem(self.address, reg, _encodeByte(value))]. *)
Definition write_field (self : t) (reg value : Z) (h : hw)
  : (ds_error + unit) * hw :=
  match getattr "_i2c" with
  | inl e => (inl e, h)
  | inr _ =>
      match _encodeByte value with
      | inl e => (inl e, h)
      | inr data => (inr tt, bus_write h (address self) reg data)
      end
  end.

(** The [hour] setter. *)
Definition set_hour (self : t) (hour : Z) (h : hw) : (ds_error + unit) * hw :=
  if decide (hour < 0 \/ hour > 23) then (inl HourOutOfRange, h)
  else write_field self 2 hour h.

(** The [minute] setter. *)
Definition set_minute (self : t) (minute : Z) (h : hw)
  : (ds_error + unit) * hw :=
  if decide (minute < 0 \/ minute > 59) then (inl MinuteOutOfRange, h)
  else write_field self 1 minute h.

End DS3231.

(** ** What the further properties speak about *)

(** Bit [i] of a mask, as [write] tests it. *)
Definition segment_on (bits i : Z) : bool :=
  bool_decide (Z.land bits (2 ^ i) <> 0).

(** Two masks that light the same seven segments. *)
Definition same_segments (b1 b2 : Z) : bool :=
  forallb (fun i => Bool.eqb (segment_on b1 i) (segment_on b2 i))
          (seqZ 0 7).

(** Digits showing the same segments are the same digit: the test, over
    every pair of digits. *)
Definition digits_distinct : bool :=
  forallb (fun d1 =>
             forallb (fun d2 =>
                        match py_getitem bits_representation d1,
                              py_getitem bits_representation d2 with
                        | Some b1, Some b2 =>
                            implb (same_segments b1 b2) (d1 =? d2)
                        | _, _ => false
                        end)
                     (seqZ 0 10))
          (seqZ 0 10).

(** A duty write to one of the fourteen clock channels, within bounds. *)
Definition bounded_channel_write (a lo hi : Z) (e : event) : Prop :=
  exists ch c, e = channel_write a (ch, c) /\ 0 <= ch < 14 /\ lo <= c <= hi.

(** What the frequency getter returns for each prescaler byte: at least 24,
    at most 6104, and within the range the setter accepts exactly from
    prescaler 3 on. *)
Definition prescaler_ok (scale : Z) : bool :=
  let f := PCA9685.frequency_of_scale scale in
  (24 <=? f) && (f <=? 6104) && Bool.eqb (f <=? 1526) (3 <=? scale).

(** The duties that [main.py] configures for the minutes face: seven
    (off, on) pairs, for the channels of the ones place. *)
Definition minutes_duties : list (Z * Z) :=
  [(245, 450); (265, 470); (275, 460); (275, 491); (275, 491); (286, 491);
   (257, 491)].

(** * Properties *)

(** ** Running the monad *)

Lemma bind_ok {A B} (m : M A) (k : A -> M B) h a h' :
  m h = (inr a, h') -> bind m k h = k a h'.
Proof. intros E. unfold bind. now rewrite E. Qed.

Lemma bind_err {A B} (m : M A) (k : A -> M B) h e h' :
  m h = (inl e, h') -> bind m k h = (inl e, h').
Proof. intros E. unfold bind. now rewrite E. Qed.

(** ** Bytes of a count *)

Lemma low_byte (a : Z) : Z.land a 255 = a mod 256.
Proof. change 255 with (Z.ones 8). now rewrite Z.land_ones. Qed.

Lemma high_byte (a : Z) : 0 <= a <= 4096 -> Z.land (Z.shiftr a 8) 255 = a / 256.
Proof.
  intros Ha. rewrite low_byte, Z.shiftr_div_pow2 by lia.
  change (2 ^ 8) with 256. apply Z.mod_small.
  split; [apply Z.div_pos; lia | apply Z.div_lt_upper_bound; lia].
Qed.

Lemma pack_2H_little_endian (on off : Z) :
  0 <= on <= 4096 -> 0 <= off <= 4096 ->
  pack_2H on off = [on mod 256; on / 256; off mod 256; off / 256].
Proof.
  intros Hon Hoff. unfold pack_2H.
  now rewrite !low_byte, <- !low_byte, !high_byte, !low_byte by lia.
Qed.

(** ** Memory writes *)

Lemma write_memory_bytes self r data h :
  PCA9685.write_memory self r (Bytes data) h
  = (inr tt, bus_write h (PCA9685.address self) r data).
Proof. reflexivity. Qed.

Lemma write_memory_one self r v h :
  0 <= v <= 255 ->
  PCA9685.write_memory self r (PyList [v]) h
  = (inr tt, bus_write h (PCA9685.address self) r [v]).
Proof.
  intros Hv. unfold PCA9685.write_memory, PCA9685.check_bytes, bind.
  now rewrite decide_True by exact Hv.
Qed.

Lemma set_pwm_ok self on off h :
  0 <= on <= 4095 -> 0 <= off <= 4096 ->
  PWMPin.set_pwm self on off h
  = (inr tt, bus_write h (PCA9685.address (parent self))
                       (PWMPin.address self) (pack_2H on off)).
Proof.
  intros Hon Hoff. unfold PWMPin.set_pwm.
  rewrite decide_True by tauto. apply write_memory_bytes.
Qed.

Lemma set_pwm_rejected self on off h :
  ~ ((0 <= on <= 4095) /\ (0 <= off <= 4096)) ->
  PWMPin.set_pwm self on off h = (inl (ValueError InvalidPWM), h).
Proof.
  intros Hbad. unfold PWMPin.set_pwm. now rewrite decide_False by exact Hbad.
Qed.

(** ** The servo bound *)

Lemma clamp_range lo hi v : lo <= hi -> lo <= Z.min hi (Z.max lo v) <= hi.
Proof. lia. Qed.

Lemma servo_duty_bound a lo hi idx v :
  ServoPin._duty_bound (Pin ServoPin_class (ServoController_board a lo hi) idx) v
  = inr (Z.min hi (Z.max lo v)).
Proof. reflexivity. Qed.

Lemma servo_set_duty a lo hi idx v h :
  0 < lo -> lo <= hi -> hi < 4095 ->
  PWMPin.set_duty (Pin ServoPin_class (ServoController_board a lo hi) idx) v h
  = (inr tt, bus_write h a (6 + 4 * idx) (pack_2H 0 (Z.min hi (Z.max lo v)))).
Proof.
  intros Hlo Hle Hhi.
  pose proof (clamp_range lo hi v Hle) as Hc.
  unfold PWMPin.set_duty, PWMPin.call_duty_bound. cbn [cls].
  rewrite servo_duty_bound.
  erewrite bind_ok by reflexivity.
  rewrite decide_False by lia. rewrite decide_False by lia.
  rewrite set_pwm_ok by lia. reflexivity.
Qed.

(** C5.  On a ServoPin whose board has [min_duty <= max_duty], the bound of
    any requested duty lies between [min_duty] and [max_duty], and bounding
    the bounded value again returns it unchanged. *)
Theorem servo_clamp_in_range_idempotent (a lo hi idx v : Z) :
  lo <= hi ->
  let self := Pin ServoPin_class (ServoController_board a lo hi) idx in
  exists c,
    ServoPin._duty_bound self v = inr c /\
    c = Z.min hi (Z.max lo v) /\
    lo <= c <= hi /\
    ServoPin._duty_bound self c = inr c.
Proof.
  intros Hle self. exists (Z.min hi (Z.max lo v)).
  subst self. rewrite !servo_duty_bound.
  repeat split; try lia. f_equal. lia.
Qed.

Lemma servo_clamp_in_range_idempotent_witness :
  exists c,
    ServoPin._duty_bound (Pin ServoPin_class servo_board 3) 9000 = inr c /\
    c = Z.min 500 (Z.max 180 9000) /\
    180 <= c <= 500 /\
    ServoPin._duty_bound (Pin ServoPin_class servo_board 3) c = inr c.
Proof.
  apply (servo_clamp_in_range_idempotent 64 180 500 3 9000). lia.
Defined.

(** C6.  [set_pwm(on, off)] fails exactly when the counts are outside
    [0 <= on <= 4095] and [0 <= off <= 4096]; the failure is the invalid-PWM
    [ValueError] and leaves the bus as it was (so for on = 4096, off = 1);
    otherwise the call issues one write of the four bytes on-low, on-high,
    off-low, off-high at the register offset of the pin. *)
Theorem set_pwm_guard_and_bytes (self : pin) (on off : Z) (h : hw) :
  ((exists e, fst (PWMPin.set_pwm self on off h) = inl e)
   <-> ~ ((0 <= on <= 4095) /\ (0 <= off <= 4096))) /\
  (~ ((0 <= on <= 4095) /\ (0 <= off <= 4096)) ->
   PWMPin.set_pwm self on off h = (inl (ValueError InvalidPWM), h)) /\
  ((0 <= on <= 4095) /\ (0 <= off <= 4096) ->
   PWMPin.set_pwm self on off h
   = (inr tt,
      bus_write h (PCA9685.address (parent self)) (6 + 4 * index self)
                [on mod 256; on / 256; off mod 256; off / 256])) /\
  PWMPin.set_pwm self 4096 1 h = (inl (ValueError InvalidPWM), h).
Proof.
  split; [split | split; [| split]].
  - intros [e He] [Hon Hoff]. rewrite set_pwm_ok in He by assumption.
    discriminate He.
  - intros Hbad. exists (ValueError InvalidPWM).
    now rewrite set_pwm_rejected.
  - apply set_pwm_rejected.
  - intros [Hon Hoff]. rewrite set_pwm_ok by assumption.
    now rewrite pack_2H_little_endian by lia.
  - apply set_pwm_rejected. lia.
Qed.

(** C10.  On a ServoPin whose board has [0 < min_duty <= max_duty < 4095],
    assigning any duty succeeds with exactly one transaction, the write of
    the pair (0, c) where c is the bounded request and lies in
    [min_duty, max_duty]; it is neither the full-off pair (0, 4096) nor the
    full-on pair (4096, 0). *)
Theorem servo_duty_one_bounded_write (a lo hi idx v : Z) (h : hw) :
  0 < lo -> lo <= hi -> hi < 4095 ->
  let self := Pin ServoPin_class (ServoController_board a lo hi) idx in
  exists c h',
    lo <= c <= hi /\
    PWMPin.set_duty self v h = (inr tt, h') /\
    trace h' = trace h ++ [pwm_write self 0 c] /\
    pwm_write self 0 c <> pwm_write self 0 4096 /\
    pwm_write self 0 c <> pwm_write self 4096 0.
Proof.
  intros Hlo Hle Hhi self.
  pose proof (clamp_range lo hi v Hle) as Hc.
  exists (Z.min hi (Z.max lo v)), (bus_write h a (6 + 4 * idx)
                                     (pack_2H 0 (Z.min hi (Z.max lo v)))).
  split; [exact Hc|]. split; [now apply servo_set_duty|].
  split; [reflexivity|].
  unfold pwm_write. rewrite !pack_2H_little_endian by lia.
  split; intros E; injection E as E.
  - change (4096 / 256) with 16 in *.
    assert (Z.min hi (Z.max lo v) / 256 < 16)
      by (apply Z.div_lt_upper_bound; lia).
    lia.
  - discriminate.
Qed.

Lemma servo_duty_one_bounded_write_witness :
  exists c h',
    180 <= c <= 500 /\
    PWMPin.set_duty (Pin ServoPin_class servo_board 2) 4095 hw0 = (inr tt, h') /\
    trace h' = trace hw0 ++ [pwm_write (Pin ServoPin_class servo_board 2) 0 c] /\
    pwm_write (Pin ServoPin_class servo_board 2) 0 c
    <> pwm_write (Pin ServoPin_class servo_board 2) 0 4096 /\
    pwm_write (Pin ServoPin_class servo_board 2) 0 c
    <> pwm_write (Pin ServoPin_class servo_board 2) 4096 0.
Proof.
  apply (servo_duty_one_bounded_write 64 180 500 2 4095 hw0); lia.
Defined.

(** ** The prescaler *)

Lemma scale_ok_on_range : forallb scale_ok (seqZ 24 1503) = true.
Proof. vm_compute. reflexivity. Qed.

Lemma scale_ok_in_range f : 24 <= f <= 1526 -> scale_ok f = true.
Proof.
  intros Hf. pose proof scale_ok_on_range as Hall.
  rewrite forallb_forall in Hall. apply Hall.
  apply list_elem_of_In, elem_of_seqZ. lia.
Qed.

Lemma scale_nearest_byte f :
  24 <= f <= 1526 ->
  2 * Z.abs (25000000 - 4096 * f * PCA9685.scale_of_frequency f) < 4096 * f /\
  4 <= PCA9685.scale_of_frequency f <= 254.
Proof.
  intros Hf. pose proof (scale_ok_in_range f Hf) as Hok.
  unfold scale_ok in Hok. cbv zeta in Hok.
  apply andb_prop in Hok as [Hok H3]. apply andb_prop in Hok as [H1 H2].
  apply Z.ltb_lt in H1. apply Z.leb_le in H2, H3. lia.
Qed.

Lemma set_frequency_ok self f h :
  24 <= f <= 1526 ->
  PCA9685.set_frequency self f h
  = (inr tt,
     bus_write
       (Hw (regs (bus_write (bus_write (bus_write h (PCA9685.address self) 0 [16])
                                       (PCA9685.address self) 254
                                       [PCA9685.scale_of_frequency f])
                            (PCA9685.address self) 0 [0]))
           (trace (bus_write (bus_write (bus_write h (PCA9685.address self) 0 [16])
                                        (PCA9685.address self) 254
                                        [PCA9685.scale_of_frequency f])
                             (PCA9685.address self) 0 [0]) ++ [SleepUs 500]))
       (PCA9685.address self) 0 [161]).
Proof.
  intros Hf. destruct (scale_nearest_byte f Hf) as [_ Hs].
  unfold PCA9685.set_frequency. rewrite decide_True by exact Hf. cbv zeta.
  erewrite bind_ok by (apply write_memory_one; lia).
  erewrite bind_ok by (apply write_memory_one; lia).
  erewrite bind_ok by (apply write_memory_one; lia).
  erewrite bind_ok by reflexivity.
  apply write_memory_one. lia.
Qed.

Lemma set_frequency_rejected self f h :
  ~ (24 <= f <= 1526) ->
  PCA9685.set_frequency self f h = (inl (ValueError InvalidFrequency), h).
Proof.
  intros Hf. unfold PCA9685.set_frequency. now rewrite decide_False by exact Hf.
Qed.

(** C3.  For [24 <= f <= 1526], [set_frequency(f)] succeeds and issues, in
    this order and nothing else: mode register 0x00 := 0x10, prescaler
    register 0xFE := scale, mode register := 0x00, a wait of 500
    microseconds, mode register := 0xA1; scale is
    [round(25_000_000 / (4096.0 * f))], an integer nearest to that quotient. *)
Theorem set_frequency_sequence (self : board) (f : Z) (h : hw) :
  24 <= f <= 1526 ->
  exists scale h',
    scale = PCA9685.scale_of_frequency f /\
    2 * Z.abs (25000000 - 4096 * f * scale) < 4096 * f /\
    PCA9685.set_frequency self f h = (inr tt, h') /\
    trace h' = trace h ++ frequency_events (PCA9685.address self) scale.
Proof.
  intros Hf. destruct (scale_nearest_byte f Hf) as [Hnear _].
  eexists _, _. split; [reflexivity|]. split; [exact Hnear|].
  split; [now apply set_frequency_ok|].
  cbn [trace bus_write]. unfold frequency_events.
  now rewrite <- !app_assoc.
Qed.

Lemma set_frequency_sequence_witness :
  exists scale h',
    scale = PCA9685.scale_of_frequency 50 /\
    2 * Z.abs (25000000 - 4096 * 50 * scale) < 4096 * 50 /\
    PCA9685.set_frequency servo_board 50 hw0 = (inr tt, h') /\
    trace h' = trace hw0 ++ frequency_events (PCA9685.address servo_board) scale.
Proof.
  apply (set_frequency_sequence servo_board 50 hw0). lia.
Defined.

(** C7.  [set_frequency] fails exactly when the frequency is outside
    [24, 1526]; the failure is the invalid-frequency [ValueError] and is
    raised before any bus write.  So 23 and 1527 fail and leave the bus as it
    was, and 24 and 1526 succeed. *)
Theorem set_frequency_fails_iff_out_of_range (self : board) (f : Z) (h : hw) :
  ((exists e, fst (PCA9685.set_frequency self f h) = inl e)
   <-> ~ (24 <= f <= 1526)) /\
  (~ (24 <= f <= 1526) ->
   PCA9685.set_frequency self f h = (inl (ValueError InvalidFrequency), h)) /\
  PCA9685.set_frequency self 23 h = (inl (ValueError InvalidFrequency), h) /\
  PCA9685.set_frequency self 1527 h = (inl (ValueError InvalidFrequency), h) /\
  fst (PCA9685.set_frequency self 24 h) = inr tt /\
  fst (PCA9685.set_frequency self 1526 h) = inr tt.
Proof.
  split; [split | split; [| split; [| split; [| split]]]].
  - intros [e He] Hf. rewrite set_frequency_ok in He by exact Hf.
    discriminate He.
  - intros Hf. exists (ValueError InvalidFrequency).
    now rewrite set_frequency_rejected.
  - apply set_frequency_rejected.
  - apply set_frequency_rejected. lia.
  - apply set_frequency_rejected. lia.
  - now rewrite set_frequency_ok by lia.
  - now rewrite set_frequency_ok by lia.
Qed.

(** ** Memory reads *)

Lemma length_bus_data h a r n :
  0 <= n -> Z.of_nat (length (bus_data h a r n)) = n.
Proof.
  intros Hn. unfold bus_data. rewrite length_map, length_seqZ. lia.
Qed.

Lemma read_memory_rejected self r n unpack h :
  ~ (n = 1 \/ n mod 2 = 0) ->
  PCA9685.read_memory self r n unpack h
  = (inl (ValueError InvalidReadLength), h).
Proof.
  intros Hn. unfold PCA9685.read_memory. now rewrite decide_False by exact Hn.
Qed.

Lemma read_memory_ok self r n unpack h :
  0 <= n -> n = 1 \/ n mod 2 = 0 ->
  PCA9685.read_memory self r n unpack h
  = (inr ((if unpack then Unpacked else Raw)
            (bus_data h (PCA9685.address self) r n)),
     bus_read h (PCA9685.address self) r n).
Proof.
  intros Hn Hg. unfold PCA9685.read_memory. rewrite decide_True by exact Hg.
  erewrite bind_ok by reflexivity.
  destruct unpack; [|reflexivity].
  unfold unpack_B. rewrite decide_True; [reflexivity|].
  split; [exact Hn | now apply length_bus_data].
Qed.

Lemma read_memory_passed_guard self r n unpack h :
  n = 1 \/ n mod 2 = 0 ->
  fst (PCA9685.read_memory self r n unpack h)
  <> inl (ValueError InvalidReadLength).
Proof.
  intros Hg. unfold PCA9685.read_memory. rewrite decide_True by exact Hg.
  erewrite bind_ok by reflexivity.
  destruct unpack; [|discriminate].
  unfold unpack_B. case_decide; discriminate.
Qed.

(** C9.  [read_memory(address, length)] raises the invalid-length
    [ValueError] exactly when [length] is neither 1 nor even, and then issues
    no bus transaction.  For a byte count ([0 <= length]) that is 1 or even
    it issues one read of [length] bytes at the address and returns them, as a
    tuple when [unpack] is set and as the raw buffer otherwise. *)
Theorem read_memory_length_guard (self : board) (memory_address length : Z)
        (unpack : bool) (h : hw) :
  (fst (PCA9685.read_memory self memory_address length unpack h)
   = inl (ValueError InvalidReadLength)
   <-> ~ (length = 1 \/ length mod 2 = 0)) /\
  (~ (length = 1 \/ length mod 2 = 0) ->
   PCA9685.read_memory self memory_address length unpack h
   = (inl (ValueError InvalidReadLength), h)) /\
  (0 <= length -> length = 1 \/ length mod 2 = 0 ->
   PCA9685.read_memory self memory_address length unpack h
   = (inr ((if unpack then Unpacked else Raw)
             (bus_data h (PCA9685.address self) memory_address length)),
      bus_read h (PCA9685.address self) memory_address length) /\
   Z.of_nat (List.length
               (bus_data h (PCA9685.address self) memory_address length))
   = length).
Proof.
  split; [split | split].
  - intros He Hg. now apply (read_memory_passed_guard self memory_address
                               length unpack h Hg).
  - intros Hg. now rewrite read_memory_rejected.
  - apply read_memory_rejected.
  - intros Hn Hg. split; [now apply read_memory_ok | now apply length_bus_data].
Qed.

Lemma read_memory_length_guard_witness :
  PCA9685.read_memory plain_board 6 3 true hw0
  = (inl (ValueError InvalidReadLength), hw0) /\
  PCA9685.read_memory plain_board 6 4 false hw0
  = (inr (Raw (bus_data hw0 64 6 4)), bus_read hw0 64 6 4) /\
  PCA9685.read_memory plain_board 254 1 true hw0
  = (inr (Unpacked (bus_data hw0 64 254 1)), bus_read hw0 64 254 1).
Proof.
  split; [|split].
  - apply (read_memory_length_guard plain_board 6 3 true hw0).
    intros [H|H]; discriminate H.
  - apply (read_memory_length_guard plain_board 6 4 false hw0);
      [lia | right; reflexivity].
  - apply (read_memory_length_guard plain_board 254 1 true hw0);
      [lia | left; reflexivity].
Defined.

(** ** The digit table and the pins *)

Lemma ones_unfold :
  Segment.ones = [(0, 0); (1, 1); (2, 2); (3, 3); (4, 4); (5, 5); (6, 6)].
Proof. reflexivity. Qed.

Lemma tens_unfold :
  Segment.tens = [(0, 7); (1, 8); (2, 9); (3, 10); (4, 11); (5, 12); (6, 13)].
Proof. reflexivity. Qed.

Lemma ones_channels : Forall (fun ip : Z * Z => 0 <= snd ip < 16) Segment.ones.
Proof. rewrite ones_unfold. repeat constructor; simpl; lia. Qed.

Lemma tens_channels : Forall (fun ip : Z * Z => 0 <= snd ip < 16) Segment.tens.
Proof. rewrite tens_unfold. repeat constructor; simpl; lia. Qed.

Lemma servo_pin_lookup a lo hi p :
  0 <= p < 16 ->
  py_getitem (pins (ServoController_board a lo hi)) p
  = Some (Pin ServoPin_class (ServoController_board a lo hi) p).
Proof.
  intros Hp.
  assert (p = 0 \/ p = 1 \/ p = 2 \/ p = 3 \/ p = 4 \/ p = 5 \/ p = 6 \/ p = 7 \/
          p = 8 \/ p = 9 \/ p = 10 \/ p = 11 \/ p = 12 \/ p = 13 \/ p = 14 \/
          p = 15) as Hcases by lia.
  repeat (destruct Hcases as [-> | Hcases]; [reflexivity|]).
  subst p. reflexivity.
Qed.

Lemma digit_lookup_some d :
  -10 <= d < 10 -> exists bits, py_getitem bits_representation d = Some bits.
Proof.
  intros Hd.
  assert (d = -10 \/ d = -9 \/ d = -8 \/ d = -7 \/ d = -6 \/ d = -5 \/ d = -4 \/
          d = -3 \/ d = -2 \/ d = -1 \/ d = 0 \/ d = 1 \/ d = 2 \/ d = 3 \/
          d = 4 \/ d = 5 \/ d = 6 \/ d = 7 \/ d = 8 \/ d = 9) as Hcases by lia.
  repeat (destruct Hcases as [-> | Hcases]; [eexists; reflexivity|]).
  subst d. eexists; reflexivity.
Qed.

Lemma digit_lookup_none d :
  d < -10 \/ 10 <= d -> py_getitem bits_representation d = None.
Proof.
  intros Hd. unfold py_getitem. cbn [length bits_representation].
  case_decide.
  - rewrite decide_False by lia. reflexivity.
  - apply lookup_ge_None_2. change (length bits_representation) with 10%nat.
    lia.
Qed.

(** A negative index counts from the end of the table. *)
Lemma digit_lookup_negative d :
  -10 <= d < 0 ->
  py_getitem bits_representation d = py_getitem bits_representation (10 + d).
Proof.
  intros Hd. unfold py_getitem. cbn [length bits_representation].
  rewrite (decide_True (P := d < 0)) by lia.
  rewrite decide_True by lia.
  rewrite (decide_False (P := 10 + d < 0)) by lia. reflexivity.
Qed.

(** ** One channel, then one digit place *)

Lemma write_pin_servo a lo hi cfg digit bits i p h :
  0 < lo -> lo <= hi -> hi < 4095 -> 0 <= p < 16 ->
  py_getitem bits_representation digit = Some bits ->
  exists h',
    Segment.write_pin (Segment.Make (ServoController_board a lo hi) cfg)
                      digit (i, p) h = (inr tt, h') /\
    trace h' = trace h ++ place_events a lo hi cfg bits [(i, p)].
Proof.
  intros Hlo Hle Hhi Hp Hbits.
  unfold Segment.write_pin, Segment.duties, place_events, servo_pair.
  cbn [Segment._duties Segment.board_of PCA9685.min_duty PCA9685.max_duty
       map fst snd].
  rewrite servo_pin_lookup by exact Hp. rewrite Hbits.
  destruct (py_getitem cfg p) as [[off on]|]; cbn [default lift fst snd];
    (erewrite bind_ok by reflexivity); case_decide;
    rewrite servo_set_duty by assumption; eexists; split; reflexivity.
Qed.

Lemma write_pin_no_digit a lo hi cfg digit i p h :
  0 <= p < 16 ->
  py_getitem bits_representation digit = None ->
  Segment.write_pin (Segment.Make (ServoController_board a lo hi) cfg)
                    digit (i, p) h = (inl IndexError, h).
Proof.
  intros Hp Hbits. unfold Segment.write_pin, Segment.duties.
  cbn [Segment._duties Segment.board_of PCA9685.min_duty PCA9685.max_duty].
  rewrite servo_pin_lookup by exact Hp. rewrite Hbits.
  destruct (py_getitem cfg p) as [[off on]|]; reflexivity.
Qed.

Lemma place_events_cons a lo hi cfg bits ip place :
  place_events a lo hi cfg bits (ip :: place)
  = place_events a lo hi cfg bits [ip] ++ place_events a lo hi cfg bits place.
Proof. reflexivity. Qed.

Lemma for_each_place a lo hi cfg digit bits place :
  0 < lo -> lo <= hi -> hi < 4095 ->
  py_getitem bits_representation digit = Some bits ->
  Forall (fun ip : Z * Z => 0 <= snd ip < 16) place ->
  forall h, exists h',
    for_each place
             (Segment.write_pin
                (Segment.Make (ServoController_board a lo hi) cfg) digit) h
    = (inr tt, h') /\
    trace h' = trace h ++ place_events a lo hi cfg bits place.
Proof.
  intros Hlo Hle Hhi Hbits Hplace.
  induction Hplace as [|[i p] place Hp _ IH]; intros h.
  - exists h. split; [reflexivity|]. cbn. now rewrite app_nil_r.
  - destruct (write_pin_servo a lo hi cfg digit bits i p h
                Hlo Hle Hhi Hp Hbits) as (h1 & Hrun1 & Htr1).
    destruct (IH h1) as (h2 & Hrun2 & Htr2).
    exists h2. split.
    + cbn [for_each]. erewrite bind_ok by exact Hrun1. exact Hrun2.
    + rewrite Htr2, Htr1, place_events_cons. now rewrite <- app_assoc.
Qed.

Lemma for_each_tens_no_digit a lo hi cfg digit h :
  py_getitem bits_representation digit = None ->
  for_each Segment.tens
           (Segment.write_pin
              (Segment.Make (ServoController_board a lo hi) cfg) digit) h
  = (inl IndexError, h).
Proof.
  intros Hbits. rewrite tens_unfold. cbn [for_each].
  apply bind_err. apply write_pin_no_digit; [lia | exact Hbits].
Qed.

Lemma length_place_events a lo hi cfg bits place :
  length (place_events a lo hi cfg bits place) = length place.
Proof. unfold place_events. apply length_map. Qed.

(** ** Writing a number *)

(** C2.  On a ServoController with [min_duty = 180], [max_duty = 500] and an
    empty duty list, [write(42)] succeeds and issues exactly fourteen
    transactions, one duty write per channel 0..13: the ones digit 2 has mask
    0x5B and drives channels 0, 1, 3, 4, 6 to 500 and 2, 5 to 180; the tens
    digit 4 has mask 0x66 and drives channels 8, 9, 12, 13 to 500 and
    7, 10, 11 to 180. *)
Theorem write_42_fourteen_writes (a : Z) (h : hw) :
  (42 mod 10 = 2 /\ py_getitem bits_representation 2 = Some 91) /\
  (42 / 10 = 4 /\ py_getitem bits_representation 4 = Some 102) /\
  exists h',
    Segment.write (Segment.Make (ServoController_board a 180 500) []) 42 h
    = (inr tt, h') /\
    trace h'
    = trace h ++
      map (channel_write a)
          [(0, 500); (1, 500); (2, 180); (3, 500); (4, 500); (5, 180);
           (6, 500);
           (7, 180); (8, 500); (9, 500); (10, 180); (11, 180); (12, 500);
           (13, 500)].
Proof.
  split; [split; reflexivity|]. split; [split; reflexivity|].
  destruct (for_each_place a 180 500 [] 2 91 Segment.ones) with (h := h)
    as (h1 & Hrun1 & Htr1); try lia; [reflexivity | apply ones_channels |].
  destruct (for_each_place a 180 500 [] 4 102 Segment.tens) with (h := h1)
    as (h2 & Hrun2 & Htr2); try lia; [reflexivity | apply tens_channels |].
  exists h2. split.
  - unfold Segment.write. cbv zeta.
    change (42 mod 10) with 2. change (42 / 10) with 4.
    erewrite bind_ok by exact Hrun1. exact Hrun2.
  - rewrite Htr2, Htr1, <- app_assoc. reflexivity.
Qed.

(** C1, as the code has it.  [Segment.write] has no range check.  On a
    ServoController with [0 < min_duty <= max_duty < 4095], for a number
    outside 0..99 the seven ones-place channels are written first, for the
    digit [number mod 10].  When [number >= 100] or [number < -100] the call
    then fails with [IndexError] at the lookup of the tens digit, with those
    seven writes done and no tens-place write.  When [-100 <= number <= -1] the
    call does not fail: the tens digit [number / 10] is negative and selects
    the table entry at [10 + number / 10], and the seven tens-place channels
    are written as well. *)
Theorem write_out_of_range (a lo hi : Z) (cfg : list (Z * Z)) (number : Z)
        (h : hw) :
  0 < lo -> lo <= hi -> hi < 4095 ->
  ~ (0 <= number <= 99) ->
  exists ones_bits h1,
    py_getitem bits_representation (number mod 10) = Some ones_bits /\
    trace h1 = trace h ++ place_events a lo hi cfg ones_bits Segment.ones /\
    length (place_events a lo hi cfg ones_bits Segment.ones) = 7%nat /\
    (number < -100 \/ 100 <= number ->
     Segment.write (Segment.Make (ServoController_board a lo hi) cfg) number h
     = (inl IndexError, h1)) /\
    (-100 <= number <= -1 ->
     exists tens_bits h2,
       py_getitem bits_representation (10 + number / 10) = Some tens_bits /\
       Segment.write (Segment.Make (ServoController_board a lo hi) cfg)
                     number h
       = (inr tt, h2) /\
       trace h2 = trace h1 ++ place_events a lo hi cfg tens_bits Segment.tens).
Proof.
  intros Hlo Hle Hhi Hout.
  destruct (digit_lookup_some (number mod 10)) as [ones_bits Hones];
    [pose proof (Z.mod_pos_bound number 10); lia|].
  destruct (for_each_place a lo hi cfg _ _ Segment.ones Hlo Hle Hhi Hones
              ones_channels h) as (h1 & Hrun1 & Htr1).
  exists ones_bits, h1.
  split; [exact Hones|]. split; [exact Htr1|].
  split; [now rewrite length_place_events|]. split.
  - intros Hfar. unfold Segment.write. cbv zeta.
    erewrite bind_ok by exact Hrun1.
    apply for_each_tens_no_digit, digit_lookup_none.
    destruct Hfar as [Hneg | Hpos].
    + left. apply Z.div_lt_upper_bound; lia.
    + right. apply Z.div_le_lower_bound; lia.
  - intros Hnear.
    assert (-10 <= number / 10 < 0) as Htens.
    { split; [apply Z.div_le_lower_bound | apply Z.div_lt_upper_bound]; lia. }
    destruct (digit_lookup_some (number / 10)) as [tens_bits Htb]; [lia|].
    destruct (for_each_place a lo hi cfg _ _ Segment.tens Hlo Hle Hhi Htb
                tens_channels h1) as (h2 & Hrun2 & Htr2).
    exists tens_bits, h2.
    split; [now rewrite <- digit_lookup_negative|]. split; [|exact Htr2].
    unfold Segment.write. cbv zeta.
    erewrite bind_ok by exact Hrun1. exact Hrun2.
Qed.

Lemma write_out_of_range_witness :
  exists ones_bits h1,
    py_getitem bits_representation (100 mod 10) = Some ones_bits /\
    trace h1 = trace hw0 ++ place_events 64 180 500 [] ones_bits Segment.ones /\
    length (place_events 64 180 500 [] ones_bits Segment.ones) = 7%nat /\
    (100 < -100 \/ 100 <= 100 ->
     Segment.write bare_face 100 hw0 = (inl IndexError, h1)) /\
    (-100 <= 100 <= -1 ->
     exists tens_bits h2,
       py_getitem bits_representation (10 + 100 / 10) = Some tens_bits /\
       Segment.write bare_face 100 hw0 = (inr tt, h2) /\
       trace h2 = trace h1 ++ place_events 64 180 500 [] tens_bits Segment.tens).
Proof.
  apply (write_out_of_range 64 180 500 [] 100 hw0); lia.
Defined.

(** C1, as stated, fails.  On the default servo board with an empty bus,
    [write(-1)] is not rejected: it returns normally after fourteen register
    writes that show 99.  [write(100)] raises [IndexError] only after the
    seven ones-place register writes, which show 0. *)
Lemma write_minus_one_and_100_write_registers :
  trace hw0 = [] /\
  fst (Segment.write bare_face (-1) hw0) = inr tt /\
  trace (snd (Segment.write bare_face (-1) hw0))
  = map (channel_write 64)
        [(0, 500); (1, 500); (2, 500); (3, 500); (4, 180); (5, 500); (6, 500);
         (7, 500); (8, 500); (9, 500); (10, 500); (11, 180); (12, 500);
         (13, 500)] /\
  fst (Segment.write bare_face 100 hw0) = inl IndexError /\
  trace (snd (Segment.write bare_face 100 hw0))
  = map (channel_write 64)
        [(0, 500); (1, 500); (2, 500); (3, 500); (4, 500); (5, 500);
         (6, 180)].
Proof. repeat split; vm_compute; reflexivity. Qed.

(** ** Reading back what was written *)

Lemma split_byte (a : Z) : Z.lor (Z.land a 255) (Z.shiftl (Z.shiftr a 8) 8) = a.
Proof.
  apply Z.bits_inj'. intros n Hn.
  rewrite Z.lor_spec, Z.land_spec. change 255 with (Z.ones 8).
  destruct (Z.lt_ge_cases n 8) as [Hlow | Hhigh].
  - rewrite Z.ones_spec_low, Z.shiftl_spec_low by lia.
    now rewrite andb_true_r, orb_false_r.
  - rewrite Z.ones_spec_high, Z.shiftl_spec, Z.shiftr_spec by lia.
    rewrite andb_false_r. cbn [orb]. f_equal. lia.
Qed.

Lemma unpack_pack_2H (on off : Z) :
  0 <= on <= 4096 -> 0 <= off <= 4096 ->
  unpack_2H (pack_2H on off) = inr (on, off).
Proof.
  intros Hon Hoff. unfold pack_2H, unpack_2H.
  rewrite (high_byte on), (high_byte off) by assumption.
  change 256 with (2 ^ 8). rewrite <- !Z.shiftr_div_pow2 by lia.
  now rewrite !split_byte.
Qed.

Lemma bus_data_after_write h a r b0 b1 b2 b3 :
  bus_data (bus_write h a r [b0; b1; b2; b3]) a r 4 = [b0; b1; b2; b3].
Proof.
  unfold bus_data, peek, bus_write. change (seqZ 0 4) with [0; 1; 2; 3].
  cbn [map regs poke]. rewrite !lookup_insert.
  repeat match goal with
         | |- context [decide (?x = ?y)] =>
             first [ rewrite (decide_True (P := x = y)) by (f_equal; lia)
                   | rewrite (decide_False (P := x = y)) by (intros [=]; lia) ]
         end.
  reflexivity.
Qed.

Lemma duty_after_set_pwm self on off h :
  0 <= on <= 4095 -> 0 <= off <= 4096 ->
  fst (PWMPin.duty self
         (bus_write h (PCA9685.address (parent self)) (PWMPin.address self)
                    (pack_2H on off)))
  = inr (if decide (on = 0 /\ off = 4096) then 0 else off).
Proof.
  intros Hon Hoff. unfold PWMPin.duty, PWMPin.pwm.
  erewrite bind_ok; cycle 1.
  { erewrite bind_ok by (apply read_memory_ok; [lia | right; reflexivity]).
    cbv beta iota. unfold pack_2H at 1. rewrite bus_data_after_write.
    fold (pack_2H on off). rewrite unpack_pack_2H by lia. reflexivity. }
  cbv beta iota zeta.
  case_decide; [reflexivity|].
  rewrite decide_False by lia. reflexivity.
Qed.

(** The part of the duty round trip that the code keeps: below 4095. *)
Lemma duty_roundtrip_below_4095 (a idx v : Z) (h : hw) :
  0 <= v < 4095 ->
  exists h1,
    PWMPin.set_duty (Pin PWMPin_class (PCA9685_board a) idx) v h = (inr tt, h1) /\
    fst (PWMPin.duty (Pin PWMPin_class (PCA9685_board a) idx) h1) = inr v.
Proof.
  intros Hv. unfold PWMPin.set_duty, PWMPin.call_duty_bound.
  cbn [cls PWMPin._duty_bound]. erewrite bind_ok by reflexivity.
  case_decide as Hz.
  - subst v. rewrite set_pwm_ok by lia. eexists. split; [reflexivity|].
    rewrite duty_after_set_pwm by lia. now rewrite decide_True by lia.
  - rewrite decide_False by lia. rewrite set_pwm_ok by lia.
    eexists. split; [reflexivity|].
    rewrite duty_after_set_pwm by lia. now rewrite decide_False by lia.
Qed.

(** C4, where the code departs from it.  On a base PWMPin the duty 4095 is
    mapped to the pair (4096, 0), which [set_pwm] refuses because its guard
    admits [on] only up to 4095: the assignment raises the invalid-PWM
    [ValueError] and writes nothing.  The duty read afterwards is what the
    registers held before, 0 on a fresh bus and not 4095. *)
Theorem pwm_pin_duty_4095_is_refused (a idx : Z) (h : hw) :
  PWMPin.set_duty (Pin PWMPin_class (PCA9685_board a) idx) 4095 h
  = (inl (ValueError InvalidPWM), h) /\
  PWMPin.set_pwm (Pin PWMPin_class (PCA9685_board a) idx) 4096 0 h
  = (inl (ValueError InvalidPWM), h) /\
  fst (PWMPin.duty (Pin PWMPin_class plain_board 0)
         (snd (PWMPin.set_duty (Pin PWMPin_class plain_board 0) 4095 hw0)))
  = inr 0.
Proof.
  split; [reflexivity|]. split; [reflexivity|]. vm_compute. reflexivity.
Qed.

(** ** Reading back the frequency *)

Lemma readback_ok_on_range : forallb readback_ok (seqZ 24 1503) = true.
Proof. vm_compute. reflexivity. Qed.

(** The part of the frequency round trip that the code keeps: the value read
    back lies in the range of the prescaler. *)
Lemma readback_in_range f : 24 <= f <= 1526 -> 24 <= readback f <= 1221.
Proof.
  intros Hf. pose proof readback_ok_on_range as Hall.
  rewrite forallb_forall in Hall.
  assert (readback_ok f = true) as Hok
    by (apply Hall, list_elem_of_In, elem_of_seqZ; lia).
  unfold readback_ok in Hok. apply andb_prop in Hok as [H1 H2].
  apply Z.leb_le in H1, H2. lia.
Qed.

Lemma frequency_after_set self f h :
  24 <= f <= 1526 ->
  exists h1,
    PCA9685.set_frequency self f h = (inr tt, h1) /\
    fst (PCA9685.frequency self h1) = inr (readback f).
Proof.
  intros Hf. rewrite set_frequency_ok by exact Hf.
  eexists. split; [reflexivity|].
  unfold PCA9685.frequency.
  erewrite bind_ok by (apply read_memory_ok; [lia | left; reflexivity]).
  unfold bus_data, peek, bus_write. change (seqZ 0 1) with [0].
  cbn [map regs poke]. change (254 + 0) with 254.
  rewrite lookup_insert_ne by (intros [=]).
  rewrite lookup_insert_ne by (intros [=]).
  rewrite lookup_insert_eq. reflexivity.
Qed.

(** C8, where the code departs from it.  The setter stores
    [round(25_000_000 / (4096 * f))] while the getter inverts
    [round(25_000_000 / (4096 * f)) - 1].  For f = 1356 the setter succeeds
    and stores 5; the getter then returns 1017, which is 339 away, more than
    the step of 204 between the frequencies of prescalers 5 and 4; the
    prescalers 4 and 3 give 1221 and 1526, both nearer to 1356. *)
Theorem frequency_readback_1356 (self : board) (h : hw) :
  exists h1,
    PCA9685.set_frequency self 1356 h = (inr tt, h1) /\
    trace h1 = trace h ++ frequency_events (PCA9685.address self) 5 /\
    fst (PCA9685.frequency self h1) = inr 1017 /\
    PCA9685.frequency_of_scale 4 = 1221 /\
    PCA9685.frequency_of_scale 3 = 1526 /\
    PCA9685.frequency_of_scale 4 - PCA9685.frequency_of_scale 5 < 1356 - 1017.
Proof.
  destruct (frequency_after_set self 1356 h) as (h1 & Hset & Hget); [lia|].
  exists h1. split; [exact Hset|]. split.
  - rewrite set_frequency_ok in Hset by lia. injection Hset as <-.
    cbn [trace bus_write]. now rewrite <- !app_assoc.
  - split; [exact Hget|]. repeat split.
Qed.

(** * Further properties of the drivers *)

(** ** [write_memory] *)

Lemma check_bytes_ok items h :
  Forall (fun v => 0 <= v <= 255) items ->
  PCA9685.check_bytes items h = (inr tt, h).
Proof.
  induction 1 as [|v rest Hv _ IH]; cbn [PCA9685.check_bytes];
    [reflexivity|].
  now rewrite decide_True by exact Hv.
Qed.

Lemma check_bytes_bad items h :
  ~ Forall (fun v => 0 <= v <= 255) items ->
  PCA9685.check_bytes items h = (inl (ValueError ByteOutOfRange), h).
Proof.
  induction items as [|v rest IH]; intros Hbad.
  - exfalso. apply Hbad. constructor.
  - cbn [PCA9685.check_bytes]. case_decide as Hv; [|reflexivity].
    apply IH. intros Hrest. apply Hbad. now constructor.
Qed.

(** X1.  [write_memory] given a list or a tuple writes it in one transaction
    when every value is within 0..255, and otherwise raises the
    byte-out-of-range [ValueError] before touching the bus; given a value
    that is neither bytes, tuple nor list it raises the unexpected-type
    [ValueError], also without touching the bus. *)
Theorem write_memory_checks_every_value (self : board) (r : Z)
        (items : list Z) (h : hw) :
  (Forall (fun v => 0 <= v <= 255) items ->
   PCA9685.write_memory self r (PyList items) h
   = (inr tt, bus_write h (PCA9685.address self) r items) /\
   PCA9685.write_memory self r (Tuple items) h
   = (inr tt, bus_write h (PCA9685.address self) r items)) /\
  (~ Forall (fun v => 0 <= v <= 255) items ->
   PCA9685.write_memory self r (PyList items) h
   = (inl (ValueError ByteOutOfRange), h) /\
   PCA9685.write_memory self r (Tuple items) h
   = (inl (ValueError ByteOutOfRange), h)) /\
  PCA9685.write_memory self r Other h
  = (inl (ValueError UnexpectedDataType), h).
Proof.
  split; [|split; [|reflexivity]].
  - intros Hok. unfold PCA9685.write_memory.
    split; (erewrite bind_ok;
            [reflexivity
            | erewrite bind_ok by (now apply check_bytes_ok); reflexivity]).
  - intros Hbad. unfold PCA9685.write_memory.
    split; (apply bind_err; apply bind_err; now apply check_bytes_bad).
Qed.

(** ** Registers outside a written window *)

Lemma poke_lookup_outside buf :
  forall m a r a' r',
    a' <> a \/ r' < r \/ r + Z.of_nat (length buf) <= r' ->
    poke m a r buf !! (a', r') = m !! (a', r').
Proof.
  induction buf as [|b rest IH]; intros m a r a' r' Hout; [reflexivity|].
  cbn [poke]. cbn [length] in Hout. rewrite IH by lia.
  apply lookup_insert_ne. intros [= -> ->]. lia.
Qed.

Lemma bus_data_outside h a r buf a' r' n :
  a' <> a \/ r' + n <= r \/ r + Z.of_nat (length buf) <= r' ->
  bus_data (bus_write h a r buf) a' r' n = bus_data h a' r' n.
Proof.
  intros Hout. unfold bus_data. apply map_ext_in. intros i Hi.
  apply list_elem_of_In, elem_of_seqZ in Hi.
  unfold peek, bus_write. cbn [regs].
  now rewrite poke_lookup_outside by lia.
Qed.

(** ** The count pair of a pin *)

Lemma high_byte_16 (a : Z) :
  0 <= a < 65536 -> Z.land (Z.shiftr a 8) 255 = Z.shiftr a 8.
Proof.
  intros Ha. rewrite low_byte, Z.shiftr_div_pow2 by lia.
  change (2 ^ 8) with 256. apply Z.mod_small.
  split; [apply Z.div_pos; lia | apply Z.div_lt_upper_bound; lia].
Qed.

Lemma unpack_pack_2H_16 (on off : Z) :
  0 <= on < 65536 -> 0 <= off < 65536 ->
  unpack_2H (pack_2H on off) = inr (on, off).
Proof.
  intros Hon Hoff. unfold pack_2H, unpack_2H.
  rewrite (high_byte_16 on), (high_byte_16 off) by assumption.
  now rewrite !split_byte.
Qed.

Lemma pwm_run self h :
  PWMPin.pwm self h
  = (unpack_2H (bus_data h (PCA9685.address (parent self))
                         (PWMPin.address self) 4),
     bus_read h (PCA9685.address (parent self)) (PWMPin.address self) 4).
Proof.
  unfold PWMPin.pwm.
  erewrite bind_ok by (apply read_memory_ok; [lia | right; reflexivity]).
  cbv beta iota.
  destruct (unpack_2H _); reflexivity.
Qed.

Lemma pwm_after_raw_write self on off h :
  0 <= on < 65536 -> 0 <= off < 65536 ->
  PWMPin.pwm self
    (bus_write h (PCA9685.address (parent self)) (PWMPin.address self)
               (pack_2H on off))
  = (inr (on, off),
     bus_read (bus_write h (PCA9685.address (parent self))
                         (PWMPin.address self) (pack_2H on off))
              (PCA9685.address (parent self)) (PWMPin.address self) 4).
Proof.
  intros Hon Hoff. rewrite pwm_run. f_equal.
  unfold pack_2H at 1. rewrite bus_data_after_write.
  fold (pack_2H on off). now apply unpack_pack_2H_16.
Qed.

(** X2.  What [set_pwm] stores, [pwm] reads back: after a successful
    [set_pwm(on, off)] the property returns the pair (on, off), by one read
    of four bytes at the register offset of the pin that leaves the
    registers as they are. *)
Theorem pwm_reads_back_set_pwm (self : pin) (on off : Z) (h : hw) :
  0 <= on <= 4095 -> 0 <= off <= 4096 ->
  exists h1 h2,
    PWMPin.set_pwm self on off h = (inr tt, h1) /\
    PWMPin.pwm self h1 = (inr (on, off), h2) /\
    regs h2 = regs h1 /\
    trace h2
    = trace h1 ++ [ReadFromMem (PCA9685.address (parent self))
                               (6 + 4 * index self) 4].
Proof.
  intros Hon Hoff. eexists _, _.
  split; [now apply set_pwm_ok|].
  split; [apply pwm_after_raw_write; lia|]. split; reflexivity.
Qed.

Lemma pwm_reads_back_set_pwm_witness :
  exists h1 h2,
    PWMPin.set_pwm (Pin PWMPin_class plain_board 5) 0 300 hw0 = (inr tt, h1) /\
    PWMPin.pwm (Pin PWMPin_class plain_board 5) h1 = (inr (0, 300), h2) /\
    regs h2 = regs h1 /\
    trace h2
    = trace h1 ++ [ReadFromMem (PCA9685.address
                                  (parent (Pin PWMPin_class plain_board 5)))
                               (6 + 4 * index (Pin PWMPin_class plain_board 5))
                               4].
Proof.
  apply (pwm_reads_back_set_pwm (Pin PWMPin_class plain_board 5) 0 300 hw0);
    lia.
Defined.

(** X3.  Pins do not disturb one another: whatever [set_pwm] does on one pin,
    the count pair and the duty read from a pin with another index, or on a
    board at another address, are what they were before. *)
Theorem set_pwm_leaves_other_pins (p q : pin) (on off : Z) (h : hw) :
  PCA9685.address (parent p) <> PCA9685.address (parent q)
  \/ index p <> index q ->
  fst (PWMPin.pwm q (snd (PWMPin.set_pwm p on off h))) = fst (PWMPin.pwm q h) /\
  fst (PWMPin.duty q (snd (PWMPin.set_pwm p on off h)))
  = fst (PWMPin.duty q h).
Proof.
  intros Hother.
  assert (fst (PWMPin.pwm q (snd (PWMPin.set_pwm p on off h)))
          = fst (PWMPin.pwm q h)) as Hpwm.
  { destruct (decide ((0 <= on <= 4095) /\ (0 <= off <= 4096))) as [[H1 H2]|Hbad].
    - rewrite set_pwm_ok by assumption. cbn [snd]. rewrite !pwm_run.
      cbn [fst]. f_equal. apply bus_data_outside.
      unfold PWMPin.address, pack_2H. cbn [length].
      destruct Hother as [Ha | Hi]; [left; congruence | right; lia].
    - now rewrite set_pwm_rejected by exact Hbad. }
  split; [exact Hpwm|].
  unfold PWMPin.duty, bind.
  destruct (PWMPin.pwm q (snd (PWMPin.set_pwm p on off h))) as [r1 s1].
  destruct (PWMPin.pwm q h) as [r2 s2]. cbn [fst] in Hpwm. subst r2.
  destruct r1 as [e | [on' off']]; [reflexivity|].
  repeat case_decide; reflexivity.
Qed.

Lemma set_pwm_leaves_other_pins_witness :
  fst (PWMPin.pwm (Pin PWMPin_class plain_board 4)
         (snd (PWMPin.set_pwm (Pin PWMPin_class plain_board 3) 0 300 hw0)))
  = fst (PWMPin.pwm (Pin PWMPin_class plain_board 4) hw0) /\
  fst (PWMPin.duty (Pin PWMPin_class plain_board 4)
         (snd (PWMPin.set_pwm (Pin PWMPin_class plain_board 3) 0 300 hw0)))
  = fst (PWMPin.duty (Pin PWMPin_class plain_board 4) hw0).
Proof.
  apply (set_pwm_leaves_other_pins (Pin PWMPin_class plain_board 3)
           (Pin PWMPin_class plain_board 4) 0 300 hw0).
  right. cbn [index]. lia.
Defined.

(** ** The duty of a pin without bounds *)

Lemma unbounded_set_duty (b : board) (idx v : Z) (h : hw) :
  PWMPin.set_duty (Pin PWMPin_class b idx) v h
  = if decide (v = 0) then PWMPin.set_pwm (Pin PWMPin_class b idx) 0 4096 h
    else if decide (v = 4095)
         then PWMPin.set_pwm (Pin PWMPin_class b idx) 4096 0 h
         else PWMPin.set_pwm (Pin PWMPin_class b idx) 0 v h.
Proof.
  unfold PWMPin.set_duty, PWMPin.call_duty_bound.
  cbn [cls PWMPin._duty_bound]. erewrite bind_ok by reflexivity.
  repeat case_decide; reflexivity.
Qed.

(** X4.  On a pin of the base class the duty setter accepts exactly the
    values 0..4096 other than 4095.  An accepted value is written as the pair
    (0, value), with 0 written as the full-off pair (0, 4096); any other value
    raises the invalid-PWM [ValueError] and leaves the bus as it was. *)
Theorem unbounded_duty_accepted_values (b : board) (idx v : Z) (h : hw) :
  (0 <= v <= 4096 /\ v <> 4095 ->
   PWMPin.set_duty (Pin PWMPin_class b idx) v h
   = (inr tt,
      bus_write h (PCA9685.address b) (6 + 4 * idx)
                (pack_2H 0 (if decide (v = 0) then 4096 else v)))) /\
  (~ (0 <= v <= 4096 /\ v <> 4095) ->
   PWMPin.set_duty (Pin PWMPin_class b idx) v h
   = (inl (ValueError InvalidPWM), h)).
Proof.
  rewrite unbounded_set_duty. split.
  - intros [Hv Hne]. case_decide.
    + now rewrite set_pwm_ok by lia.
    + rewrite decide_False by exact Hne. now rewrite set_pwm_ok by lia.
  - intros Hbad. case_decide; [lia|]. case_decide.
    + apply set_pwm_rejected. lia.
    + apply set_pwm_rejected. lia.
Qed.

(** X5.  Setting a duty on a pin of the base class and reading it back: every
    accepted value below 4095 is read back unchanged, and the accepted value
    4096 is read back as 0, because (0, 4096) is also the full-off pair. *)
Theorem unbounded_duty_round_trip (b : board) (idx v : Z) (h : hw) :
  0 <= v <= 4096 -> v <> 4095 ->
  fst (PWMPin.duty (Pin PWMPin_class b idx)
         (snd (PWMPin.set_duty (Pin PWMPin_class b idx) v h)))
  = inr (if decide (v = 4096) then 0 else v).
Proof.
  intros Hv Hne.
  destruct (unbounded_duty_accepted_values b idx v h) as [Hok _].
  rewrite Hok by tauto. cbn [snd].
  pose proof (duty_after_set_pwm (Pin PWMPin_class b idx) 0
                (if decide (v = 0) then 4096 else v) h) as Hread.
  cbn [parent] in Hread. unfold PWMPin.address in Hread. cbn [index] in Hread.
  rewrite Hread by (case_decide; lia).
  f_equal. repeat case_decide; lia.
Qed.

Lemma unbounded_duty_round_trip_witness :
  fst (PWMPin.duty (Pin PWMPin_class plain_board 1)
         (snd (PWMPin.set_duty (Pin PWMPin_class plain_board 1) 4096 hw0)))
  = inr (if decide (4096 = 4096) then 0 else 4096).
Proof.
  apply (unbounded_duty_round_trip plain_board 1 4096 hw0); lia.
Defined.

(** X6.  What the duty getter makes of the registers: when the four
    registers of a pin hold the 16-bit counts (on, off), low byte first, the
    duty read is 0 for (0, 4096), 4095 for (4096, 0) and [off] for every other
    pair. *)
Theorem duty_decodes_registers (self : pin) (on off : Z) (h : hw) :
  0 <= on < 65536 -> 0 <= off < 65536 ->
  fst (PWMPin.duty self
         (bus_write h (PCA9685.address (parent self)) (6 + 4 * index self)
                    (pack_2H on off)))
  = inr (if decide (on = 0 /\ off = 4096) then 0
         else if decide (on = 4096 /\ off = 0) then 4095
              else off).
Proof.
  intros Hon Hoff. unfold PWMPin.duty.
  erewrite bind_ok by (apply pwm_after_raw_write; assumption).
  cbv beta iota zeta. repeat case_decide; reflexivity.
Qed.

Lemma duty_decodes_registers_witness :
  fst (PWMPin.duty (Pin PWMPin_class plain_board 2)
         (bus_write hw0
                    (PCA9685.address (parent (Pin PWMPin_class plain_board 2)))
                    (6 + 4 * index (Pin PWMPin_class plain_board 2))
                    (pack_2H 4096 0)))
  = inr (if decide (4096 = 0 /\ 0 = 4096) then 0
         else if decide (4096 = 4096 /\ 0 = 0) then 4095
              else 0).
Proof.
  apply (duty_decodes_registers (Pin PWMPin_class plain_board 2) 4096 0 hw0);
    lia.
Defined.

(** ** The servo bound, case by case *)

(** X7.  The bound of a ServoPin leaves a request within
    [min_duty, max_duty] unchanged, raises a lower one to [min_duty] (when
    [min_duty <= max_duty]) and lowers a higher one to [max_duty]; on a board
    whose [min_duty] exceeds [max_duty] every request becomes [max_duty]. *)
Theorem servo_bound_saturates (a lo hi idx v : Z) :
  exists c,
    ServoPin._duty_bound (Pin ServoPin_class (ServoController_board a lo hi) idx)
                         v = inr c /\
    (lo <= v <= hi -> c = v) /\
    (lo <= hi -> v < lo -> c = lo) /\
    (hi < v -> c = hi) /\
    (hi < lo -> c = hi).
Proof.
  exists (Z.min hi (Z.max lo v)). rewrite servo_duty_bound.
  repeat split; lia.
Qed.

(** ** The frequency, set and read *)

(** X8.  After a successful [set_frequency(f)] the getter succeeds and returns
    the frequency of the stored prescaler, which lies between 24 and 1221:
    within the range that the setter accepts. *)
Theorem frequency_read_after_set_in_range (self : board) (f : Z) (h : hw) :
  24 <= f <= 1526 ->
  exists h1 r,
    PCA9685.set_frequency self f h = (inr tt, h1) /\
    fst (PCA9685.frequency self h1) = inr r /\
    r = PCA9685.frequency_of_scale (PCA9685.scale_of_frequency f) /\
    24 <= r <= 1221.
Proof.
  intros Hf. destruct (frequency_after_set self f h Hf) as (h1 & Hset & Hget).
  exists h1, (readback f).
  split; [exact Hset|]. split; [exact Hget|]. split; [reflexivity|].
  now apply readback_in_range.
Qed.

Lemma frequency_read_after_set_in_range_witness :
  exists h1 r,
    PCA9685.set_frequency servo_board 50 hw0 = (inr tt, h1) /\
    fst (PCA9685.frequency servo_board h1) = inr r /\
    r = PCA9685.frequency_of_scale (PCA9685.scale_of_frequency 50) /\
    24 <= r <= 1221.
Proof.
  apply (frequency_read_after_set_in_range servo_board 50 hw0). lia.
Defined.

Lemma prescaler_ok_all : forallb prescaler_ok (seqZ 0 256) = true.
Proof. vm_compute. reflexivity. Qed.

Lemma frequency_of_prescaler_byte scale :
  0 <= scale <= 255 ->
  24 <= PCA9685.frequency_of_scale scale <= 6104 /\
  (PCA9685.frequency_of_scale scale <= 1526 <-> 3 <= scale).
Proof.
  intros Hs. pose proof prescaler_ok_all as Hall.
  rewrite forallb_forall in Hall.
  assert (prescaler_ok scale = true) as Hok
    by (apply Hall, list_elem_of_In, elem_of_seqZ; lia).
  unfold prescaler_ok in Hok. cbv zeta in Hok.
  apply andb_prop in Hok as [Hok H3]. apply andb_prop in Hok as [H1 H2].
  apply Z.leb_le in H1, H2. apply Bool.eqb_prop in H3.
  split; [lia|]. rewrite <- Z.leb_le, H3, Z.leb_le. reflexivity.
Qed.

(** X9.  The frequency getter against the prescaler register: when the
    register 0xFE holds a byte, the getter succeeds by one read of one byte and
    returns a frequency between 24 and 6104; that frequency is one the setter
    would accept (at most 1526) exactly when the prescaler is at least 3. *)
Theorem frequency_of_stored_prescaler (self : board) (h : hw) :
  0 <= peek h (PCA9685.address self) 254 <= 255 ->
  exists r,
    PCA9685.frequency self h
    = (inr r, bus_read h (PCA9685.address self) 254 1) /\
    r = PCA9685.frequency_of_scale (peek h (PCA9685.address self) 254) /\
    24 <= r <= 6104 /\
    (r <= 1526 <-> 3 <= peek h (PCA9685.address self) 254).
Proof.
  intros Hbyte. eexists. split; [|split; [reflexivity|]].
  - unfold PCA9685.frequency.
    erewrite bind_ok by (apply read_memory_ok; [lia | left; reflexivity]).
    unfold bus_data. change (seqZ 0 1) with [0]. cbn [map].
    change (py_getitem [peek h (PCA9685.address self) (254 + 0)] 0)
      with (Some (peek h (PCA9685.address self) (254 + 0))).
    cbv beta iota. change (254 + 0) with 254. reflexivity.
  - now apply frequency_of_prescaler_byte.
Qed.

Lemma frequency_of_stored_prescaler_witness :
  exists r,
    PCA9685.frequency plain_board (bus_write hw0 64 254 [2])
    = (inr r, bus_read (bus_write hw0 64 254 [2])
                       (PCA9685.address plain_board) 254 1) /\
    r = PCA9685.frequency_of_scale
          (peek (bus_write hw0 64 254 [2]) (PCA9685.address plain_board) 254) /\
    24 <= r <= 6104 /\
    (r <= 1526
     <-> 3 <= peek (bus_write hw0 64 254 [2]) (PCA9685.address plain_board)
                   254).
Proof.
  apply (frequency_of_stored_prescaler plain_board (bus_write hw0 64 254 [2])).
  vm_compute. split; discriminate.
Defined.

(** ** The constructors *)

(** X10.  [ServoController(i2c, address, frequency, min_duty, max_duty)]
    first clears the mode register and then sets the frequency: with a
    frequency within [24, 1526] it returns the board after six transactions;
    with any other frequency it raises the invalid-frequency [ValueError]
    after the one write that cleared the mode register. *)
Theorem servo_controller_init (a f lo hi : Z) (h : hw) :
  (24 <= f <= 1526 ->
   exists h1,
     ServoController.init a f lo hi h
     = (inr (ServoController_board a lo hi), h1) /\
     trace h1
     = trace h ++ WriteToMem a 0 [0]
                  :: frequency_events a (PCA9685.scale_of_frequency f)) /\
  (~ (24 <= f <= 1526) ->
   ServoController.init a f lo hi h
   = (inl (ValueError InvalidFrequency), bus_write h a 0 [0])).
Proof.
  unfold ServoController.init, PCA9685._reset. cbv zeta. split.
  - intros Hf. eexists. split.
    + erewrite bind_ok by (apply write_memory_one; lia).
      erewrite bind_ok by (now apply set_frequency_ok).
      reflexivity.
    + cbn [trace bus_write PCA9685.address]. unfold frequency_events.
      now rewrite <- !app_assoc.
  - intros Hf.
    erewrite bind_ok by (apply write_memory_one; lia).
    apply bind_err. now apply set_frequency_rejected.
Qed.

(** ** Memory written, then read *)

Lemma poke_window buf :
  forall m a r,
    map (fun i => default 0 (poke m a r buf !! (a, r + i)))
        (seqZ 0 (Z.of_nat (length buf)))
    = buf.
Proof.
  induction buf as [|b rest IH]; intros m a r; [reflexivity|].
  cbn [length poke]. rewrite seqZ_cons by lia. cbn [map]. f_equal.
  - rewrite poke_lookup_outside by lia.
    rewrite Z.add_0_r, lookup_insert_eq. reflexivity.
  - replace (Z.pred (Z.of_nat (S (length rest))))
      with (Z.of_nat (length rest)) by lia.
    etransitivity; [|exact (IH (<[(a, r) := b]> m) a (r + 1))].
    change (Z.succ 0) with (1 + 0). rewrite <- (fmap_add_seqZ 1 0).
    generalize (seqZ 0 (Z.of_nat (length rest))). intros l.
    induction l as [|i l IHl]; [reflexivity|].
    cbn [fmap list_fmap map]. f_equal; [|exact IHl].
    do 3 f_equal. lia.
Qed.

Lemma bus_data_window h a r buf :
  bus_data (bus_write h a r buf) a r (Z.of_nat (length buf)) = buf.
Proof. unfold bus_data, peek, bus_write. cbn [regs]. apply poke_window. Qed.

(** X11.  Memory written is memory read: after [write_memory] has written a
    list of bytes whose count is 1 or even, [read_memory] of that count at
    the same address returns those bytes, as a tuple with [unpack] and as the
    buffer without; the trace shows the write followed by the read. *)
Theorem read_memory_returns_written (self : board) (r : Z) (items : list Z)
        (unpack : bool) (h : hw) :
  Forall (fun v => 0 <= v <= 255) items ->
  Z.of_nat (length items) = 1 \/ Z.of_nat (length items) mod 2 = 0 ->
  exists h1 h2,
    PCA9685.write_memory self r (PyList items) h = (inr tt, h1) /\
    PCA9685.read_memory self r (Z.of_nat (length items)) unpack h1
    = (inr ((if unpack then Unpacked else Raw) items), h2) /\
    trace h2
    = trace h ++ [WriteToMem (PCA9685.address self) r items;
                  ReadFromMem (PCA9685.address self) r
                              (Z.of_nat (length items))].
Proof.
  intros Hbytes Hlen. do 2 eexists. split; [|split].
  - unfold PCA9685.write_memory.
    erewrite bind_ok;
      [reflexivity
      | erewrite bind_ok by (now apply check_bytes_ok); reflexivity].
  - rewrite read_memory_ok by (first [lia | exact Hlen]).
    now rewrite bus_data_window.
  - cbn [trace bus_read bus_write]. now rewrite <- app_assoc.
Qed.

Lemma read_memory_returns_written_witness :
  exists h1 h2,
    PCA9685.write_memory plain_board 6 (PyList [0; 0; 44; 1]) hw0
    = (inr tt, h1) /\
    PCA9685.read_memory plain_board 6
                        (Z.of_nat (length [0; 0; 44; 1])) true h1
    = (inr ((if true then Unpacked else Raw) [0; 0; 44; 1]), h2) /\
    trace h2
    = trace hw0 ++ [WriteToMem (PCA9685.address plain_board) 6 [0; 0; 44; 1];
                    ReadFromMem (PCA9685.address plain_board) 6
                                (Z.of_nat (length [0; 0; 44; 1]))].
Proof.
  apply (read_memory_returns_written plain_board 6 [0; 0; 44; 1] true hw0).
  - repeat constructor; lia.
  - right. reflexivity.
Defined.

(** ** The clock face, for every number *)

Lemma write_ones_first a lo hi cfg number h :
  0 < lo -> lo <= hi -> hi < 4095 ->
  exists ones_bits h1,
    py_getitem bits_representation (number mod 10) = Some ones_bits /\
    trace h1 = trace h ++ place_events a lo hi cfg ones_bits Segment.ones /\
    Segment.write (Segment.Make (ServoController_board a lo hi) cfg) number h
    = for_each Segment.tens
               (Segment.write_pin
                  (Segment.Make (ServoController_board a lo hi) cfg)
                  (number / 10)) h1.
Proof.
  intros Hlo Hle Hhi.
  destruct (digit_lookup_some (number mod 10)) as [ones_bits Hones];
    [pose proof (Z.mod_pos_bound number 10); lia|].
  destruct (for_each_place a lo hi cfg _ _ Segment.ones Hlo Hle Hhi Hones
              ones_channels h) as (h1 & Hrun1 & Htr1).
  exists ones_bits, h1. split; [exact Hones|]. split; [exact Htr1|].
  unfold Segment.write. cbv zeta. now erewrite bind_ok by exact Hrun1.
Qed.

Lemma write_both_places a lo hi cfg number h :
  0 < lo -> lo <= hi -> hi < 4095 -> -10 <= number / 10 < 10 ->
  exists ones_bits tens_bits h',
    py_getitem bits_representation (number mod 10) = Some ones_bits /\
    py_getitem bits_representation (number / 10) = Some tens_bits /\
    Segment.write (Segment.Make (ServoController_board a lo hi) cfg) number h
    = (inr tt, h') /\
    trace h'
    = trace h ++ place_events a lo hi cfg ones_bits Segment.ones
              ++ place_events a lo hi cfg tens_bits Segment.tens.
Proof.
  intros Hlo Hle Hhi Htens.
  destruct (write_ones_first a lo hi cfg number h Hlo Hle Hhi)
    as (ones_bits & h1 & Hones & Htr1 & Hrun).
  destruct (digit_lookup_some (number / 10) Htens) as [tens_bits Htb].
  destruct (for_each_place a lo hi cfg _ _ Segment.tens Hlo Hle Hhi Htb
              tens_channels h1) as (h2 & Hrun2 & Htr2).
  exists ones_bits, tens_bits, h2.
  split; [exact Hones|]. split; [exact Htb|]. split.
  - now rewrite Hrun.
  - rewrite Htr2, Htr1. now rewrite <- app_assoc.
Qed.

Lemma tens_digit_of_two_digits number :
  0 <= number <= 99 -> 0 <= number / 10 < 10.
Proof.
  intros Hn. split; [apply Z.div_pos | apply Z.div_lt_upper_bound]; lia.
Qed.

(** X12.  On a ServoController with [0 < min_duty <= max_duty < 4095] and
    any list of duties, [write(number)] for a number in 0..99 never fails: it
    looks up the masks of the digits [number mod 10] and [number // 10] and
    issues exactly fourteen writes, the seven of the ones place on channels
    0..6 followed by the seven of the tens place on channels 7..13. *)
Theorem write_two_digits (a lo hi : Z) (cfg : list (Z * Z)) (number : Z)
        (h : hw) :
  0 < lo -> lo <= hi -> hi < 4095 -> 0 <= number <= 99 ->
  exists ones_bits tens_bits h',
    bits_representation !! Z.to_nat (number mod 10) = Some ones_bits /\
    bits_representation !! Z.to_nat (number / 10) = Some tens_bits /\
    Segment.write (Segment.Make (ServoController_board a lo hi) cfg) number h
    = (inr tt, h') /\
    trace h'
    = trace h ++ place_events a lo hi cfg ones_bits Segment.ones
              ++ place_events a lo hi cfg tens_bits Segment.tens /\
    length (place_events a lo hi cfg ones_bits Segment.ones
            ++ place_events a lo hi cfg tens_bits Segment.tens) = 14%nat.
Proof.
  intros Hlo Hle Hhi Hn.
  pose proof (tens_digit_of_two_digits number Hn) as Htens.
  pose proof (Z.mod_pos_bound number 10 ltac:(lia)) as Hones.
  destruct (write_both_places a lo hi cfg number h Hlo Hle Hhi)
    as (ones_bits & tens_bits & h' & Hob & Htb & Hrun & Htr); [lia|].
  exists ones_bits, tens_bits, h'.
  unfold py_getitem in Hob, Htb.
  rewrite decide_False in Hob by lia. rewrite decide_False in Htb by lia.
  split; [exact Hob|]. split; [exact Htb|]. split; [exact Hrun|].
  split; [exact Htr|].
  now rewrite length_app, !length_place_events.
Qed.

Lemma write_two_digits_witness :
  exists ones_bits tens_bits h',
    bits_representation !! Z.to_nat (7 mod 10) = Some ones_bits /\
    bits_representation !! Z.to_nat (7 / 10) = Some tens_bits /\
    Segment.write (Segment.Make (ServoController_board 64 180 500) []) 7 hw0
    = (inr tt, h') /\
    trace h'
    = trace hw0 ++ place_events 64 180 500 [] ones_bits Segment.ones
                ++ place_events 64 180 500 [] tens_bits Segment.tens /\
    length (place_events 64 180 500 [] ones_bits Segment.ones
            ++ place_events 64 180 500 [] tens_bits Segment.tens) = 14%nat.
Proof.
  apply (write_two_digits 64 180 500 [] 7 hw0); lia.
Defined.

Lemma ones_clock_channels :
  Forall (fun ip : Z * Z => 0 <= snd ip < 14) Segment.ones.
Proof. rewrite ones_unfold. repeat constructor; simpl; lia. Qed.

Lemma tens_clock_channels :
  Forall (fun ip : Z * Z => 0 <= snd ip < 14) Segment.tens.
Proof. rewrite tens_unfold. repeat constructor; simpl; lia. Qed.

Lemma place_events_bounded a lo hi cfg bits place :
  lo <= hi ->
  Forall (fun ip : Z * Z => 0 <= snd ip < 14) place ->
  Forall (bounded_channel_write a lo hi) (place_events a lo hi cfg bits place).
Proof.
  intros Hle Hplace. induction Hplace as [|[i p] place Hp _ IH];
    [constructor|].
  rewrite place_events_cons. cbn [app place_events map fst snd].
  constructor; [|exact IH].
  eexists p, _. split; [reflexivity|]. split; [exact Hp|].
  now apply clamp_range.
Qed.

(** X13.  Whatever the number, in range or not, and whether the call returns
    or raises, [write] on a ServoController with
    [0 < min_duty <= max_duty < 4095] adds to the bus only duty writes to the
    clock channels 0..13 with a duty between [min_duty] and [max_duty]:
    seven of them or fourteen, and nothing else. *)
Theorem write_only_bounded_channel_writes (a lo hi : Z) (cfg : list (Z * Z))
        (number : Z) (h : hw) :
  0 < lo -> lo <= hi -> hi < 4095 ->
  exists evs,
    trace (snd (Segment.write
                  (Segment.Make (ServoController_board a lo hi) cfg) number h))
    = trace h ++ evs /\
    Forall (bounded_channel_write a lo hi) evs /\
    (length evs = 7%nat \/ length evs = 14%nat).
Proof.
  intros Hlo Hle Hhi.
  destruct (decide (-10 <= number / 10 < 10)) as [Htens | Hfar].
  - destruct (write_both_places a lo hi cfg number h Hlo Hle Hhi Htens)
      as (ones_bits & tens_bits & h' & _ & _ & Hrun & Htr).
    eexists. rewrite Hrun. cbn [snd]. split; [exact Htr|]. split.
    + apply Forall_app. split; apply place_events_bounded;
        first [exact Hle | apply ones_clock_channels
              | apply tens_clock_channels].
    + right. now rewrite length_app, !length_place_events.
  - destruct (write_ones_first a lo hi cfg number h Hlo Hle Hhi)
      as (ones_bits & h1 & _ & Htr1 & Hrun).
    eexists. rewrite Hrun.
    rewrite for_each_tens_no_digit by (apply digit_lookup_none; lia).
    cbn [snd]. split; [exact Htr1|]. split.
    + apply place_events_bounded; [exact Hle | apply ones_clock_channels].
    + left. now rewrite length_place_events.
Qed.

Lemma write_only_bounded_channel_writes_witness :
  exists evs,
    trace (snd (Segment.write
                  (Segment.Make (ServoController_board 64 180 500)
                                [(0, 4095); (100, 200)])
                  (-2024) hw0))
    = trace hw0 ++ evs /\
    Forall (bounded_channel_write 64 180 500) evs /\
    (length evs = 7%nat \/ length evs = 14%nat).
Proof.
  apply (write_only_bounded_channel_writes
           64 180 500 [(0, 4095); (100, 200)] (-2024) hw0); lia.
Defined.

(** ** The duties of a channel *)

(** X14.  [duties(pin)] returns the configured pair wherever the list has
    one: at an index below its length, and also at a negative index down to
    minus its length, which counts from the end.  At any other index the
    [IndexError] is caught, and the answer is the pair of the board's bounds
    on a ServoController and an [AttributeError] on a plain PCA9685, which has
    no [min_duty]. *)
Theorem duties_configured_or_board_bounds (b : board) (cfg : list (Z * Z))
        (p : Z) :
  (0 <= p < Z.of_nat (length cfg) ->
   exists pair,
     cfg !! Z.to_nat p = Some pair /\
     Segment.duties (Segment.Make b cfg) p = inr pair) /\
  (- Z.of_nat (length cfg) <= p < 0 ->
   exists pair,
     cfg !! Z.to_nat (Z.of_nat (length cfg) + p) = Some pair /\
     Segment.duties (Segment.Make b cfg) p = inr pair) /\
  (p < - Z.of_nat (length cfg) \/ Z.of_nat (length cfg) <= p ->
   Segment.duties (Segment.Make b cfg) p
   = match b with
     | ServoController_board _ lo hi => inr (lo, hi)
     | PCA9685_board _ => inl AttributeError
     end).
Proof.
  unfold Segment.duties, py_getitem. cbn [Segment._duties Segment.board_of].
  split; [|split].
  - intros Hp. rewrite decide_False by lia.
    destruct (lookup_lt_is_Some_2 cfg (Z.to_nat p)) as [[off on] Hpair];
      [lia|].
    exists (off, on). now rewrite Hpair.
  - intros Hp. rewrite decide_True by lia. rewrite decide_True by lia.
    destruct (lookup_lt_is_Some_2 cfg (Z.to_nat (Z.of_nat (length cfg) + p)))
      as [[off on] Hpair]; [lia|].
    exists (off, on). now rewrite Hpair.
  - intros [Hp | Hp].
    + rewrite decide_True by lia. rewrite decide_False by lia.
      destruct b; reflexivity.
    + rewrite decide_False by lia.
      rewrite lookup_ge_None_2 by lia. destruct b; reflexivity.
Qed.

(** X15.  A Segment on a plain PCA9685 with an empty list of duties cannot
    write any number: the first channel falls back to [board.min_duty], which
    a plain board does not have, so [write] raises [AttributeError] before any
    bus transaction. *)
Theorem write_on_plain_board_without_duties (a number : Z) (h : hw) :
  Segment.write (Segment.Make (PCA9685_board a) []) number h
  = (inl AttributeError, h).
Proof.
  unfold Segment.write. cbv zeta. rewrite ones_unfold. cbn [for_each].
  apply bind_err, bind_err. reflexivity.
Qed.

(** ** Telling numbers apart on the bus *)

Lemma pack_2H_duty_inj d1 d2 :
  0 <= d1 <= 4096 -> 0 <= d2 <= 4096 ->
  pack_2H 0 d1 = pack_2H 0 d2 -> d1 = d2.
Proof.
  intros H1 H2 Heq.
  assert (unpack_2H (pack_2H 0 d1) = unpack_2H (pack_2H 0 d2)) as Hun
    by now rewrite Heq.
  rewrite !unpack_pack_2H in Hun by lia. congruence.
Qed.

Lemma write_event_cons_inj a r buf1 buf2 (l1 l2 : list event) :
  WriteToMem a r buf1 :: l1 = WriteToMem a r buf2 :: l2 ->
  buf1 = buf2 /\ l1 = l2.
Proof. intros Heq. now injection Heq. Qed.

Lemma place_events_same_bits a lo hi cfg b1 b2 place :
  0 <= lo -> lo <= hi -> hi <= 4096 ->
  Forall (fun ip : Z * Z =>
            Z.min hi (Z.max lo (fst (servo_pair lo hi cfg (snd ip))))
            <> Z.min hi (Z.max lo (snd (servo_pair lo hi cfg (snd ip)))))
         place ->
  place_events a lo hi cfg b1 place = place_events a lo hi cfg b2 place ->
  Forall (fun ip : Z * Z => segment_on b1 (fst ip) = segment_on b2 (fst ip))
         place.
Proof.
  intros Hlo Hle Hhi Hplace.
  induction Hplace as [|[i p] place Hdiff _ IH]; intros Heq; [constructor|].
  cbn [place_events map fst snd] in Heq, Hdiff.
  apply write_event_cons_inj in Heq as [Hhead Htail].
  constructor; [|exact (IH Htail)].
  cbn [fst]. unfold segment_on.
  apply pack_2H_duty_inj in Hhead.
  - destruct (decide (Z.land b1 (2 ^ i) <> 0)) as [H1 | H1],
             (decide (Z.land b2 (2 ^ i) <> 0)) as [H2 | H2].
    + now rewrite !bool_decide_eq_true_2.
    + exfalso. apply Hdiff. now symmetry.
    + exfalso. now apply Hdiff.
    + now rewrite !bool_decide_eq_false_2.
  - pose proof (clamp_range lo hi
                  (if decide (Z.land b1 (2 ^ i) <> 0)
                   then snd (servo_pair lo hi cfg p)
                   else fst (servo_pair lo hi cfg p)) Hle). lia.
  - pose proof (clamp_range lo hi
                  (if decide (Z.land b2 (2 ^ i) <> 0)
                   then snd (servo_pair lo hi cfg p)
                   else fst (servo_pair lo hi cfg p)) Hle). lia.
Qed.

Lemma same_segments_of_place place b1 b2 :
  map fst place = seqZ 0 7 ->
  Forall (fun ip : Z * Z => segment_on b1 (fst ip) = segment_on b2 (fst ip))
         place ->
  same_segments b1 b2 = true.
Proof.
  intros Hidx Hall. unfold same_segments. rewrite <- Hidx.
  apply forallb_forall. intros i Hi.
  apply in_map_iff in Hi as ([j p] & <- & Hin).
  rewrite Forall_forall in Hall.
  rewrite (Hall (j, p)) by now apply list_elem_of_In.
  apply Bool.eqb_reflx.
Qed.

Lemma digits_distinct_holds : digits_distinct = true.
Proof. vm_compute. reflexivity. Qed.

Lemma same_segments_same_digit d1 d2 b1 b2 :
  0 <= d1 < 10 -> 0 <= d2 < 10 ->
  py_getitem bits_representation d1 = Some b1 ->
  py_getitem bits_representation d2 = Some b2 ->
  same_segments b1 b2 = true -> d1 = d2.
Proof.
  intros Hd1 Hd2 Hb1 Hb2 Hsame.
  pose proof digits_distinct_holds as Hall. unfold digits_distinct in Hall.
  rewrite forallb_forall in Hall.
  specialize (Hall d1 ltac:(apply list_elem_of_In, elem_of_seqZ; lia)).
  rewrite forallb_forall in Hall.
  specialize (Hall d2 ltac:(apply list_elem_of_In, elem_of_seqZ; lia)).
  rewrite Hb1, Hb2, Hsame in Hall. now apply Z.eqb_eq.
Qed.

Lemma place_events_same_digit a lo hi cfg d1 d2 b1 b2 place :
  0 <= lo -> lo <= hi -> hi <= 4096 ->
  map fst place = seqZ 0 7 ->
  Forall (fun ip : Z * Z => 0 <= snd ip < 14) place ->
  (forall p, 0 <= p < 14 ->
             Z.min hi (Z.max lo (fst (servo_pair lo hi cfg p)))
             <> Z.min hi (Z.max lo (snd (servo_pair lo hi cfg p)))) ->
  0 <= d1 < 10 -> 0 <= d2 < 10 ->
  py_getitem bits_representation d1 = Some b1 ->
  py_getitem bits_representation d2 = Some b2 ->
  place_events a lo hi cfg b1 place = place_events a lo hi cfg b2 place ->
  d1 = d2.
Proof.
  intros Hlo Hle Hhi Hidx Hch Hdiff Hd1 Hd2 Hb1 Hb2 Heq.
  apply (same_segments_same_digit d1 d2 b1 b2 Hd1 Hd2 Hb1 Hb2).
  apply (same_segments_of_place place b1 b2 Hidx).
  apply (place_events_same_bits a lo hi cfg b1 b2 place Hlo Hle Hhi);
    [|exact Heq].
  eapply Forall_impl; [exact Hch|]. intros ip Hip. now apply Hdiff.
Qed.

(** X16.  The bus tells the numbers apart.  On a ServoController with
    [0 < min_duty <= max_duty < 4095] on which every clock channel has
    distinct bounded off and on duties, two numbers in 0..99 leave the same
    trace under [write] exactly when they are the same number: no two digits
    share a mask on the seven segments. *)
Theorem write_trace_determines_number (a lo hi : Z) (cfg : list (Z * Z))
        (n m : Z) (h : hw) :
  0 < lo -> lo <= hi -> hi < 4095 ->
  (forall p, 0 <= p < 14 ->
             Z.min hi (Z.max lo (fst (servo_pair lo hi cfg p)))
             <> Z.min hi (Z.max lo (snd (servo_pair lo hi cfg p)))) ->
  0 <= n <= 99 -> 0 <= m <= 99 ->
  (trace (snd (Segment.write
                 (Segment.Make (ServoController_board a lo hi) cfg) n h))
   = trace (snd (Segment.write
                   (Segment.Make (ServoController_board a lo hi) cfg) m h))
   <-> n = m).
Proof.
  intros Hlo Hle Hhi Hdiff Hn Hm. split; [|now intros ->]. intros Htr.
  pose proof (tens_digit_of_two_digits n Hn) as Htn.
  pose proof (tens_digit_of_two_digits m Hm) as Htm.
  pose proof (Z.mod_pos_bound n 10 ltac:(lia)) as Hon.
  pose proof (Z.mod_pos_bound m 10 ltac:(lia)) as Hom.
  destruct (write_both_places a lo hi cfg n h Hlo Hle Hhi)
    as (on & tn & hn & Hob_n & Htb_n & Hrun_n & Htr_n); [lia|].
  destruct (write_both_places a lo hi cfg m h Hlo Hle Hhi)
    as (om & tm & hm & Hob_m & Htb_m & Hrun_m & Htr_m); [lia|].
  rewrite Hrun_n, Hrun_m in Htr. cbn [snd] in Htr.
  rewrite Htr_n, Htr_m in Htr. apply app_inv_head in Htr.
  apply app_inj_1 in Htr as [Hones Htens];
    [|now rewrite !length_place_events].
  assert (n mod 10 = m mod 10) as Ho.
  { apply (place_events_same_digit a lo hi cfg _ _ on om Segment.ones);
      first [lia | reflexivity | assumption | apply ones_clock_channels]. }
  assert (n / 10 = m / 10) as Ht.
  { apply (place_events_same_digit a lo hi cfg _ _ tn tm Segment.tens);
      first [lia | reflexivity | assumption | apply tens_clock_channels]. }
  rewrite (Z.div_mod n 10), (Z.div_mod m 10) by lia. now rewrite Ho, Ht.
Qed.

Lemma minutes_duties_distinct (p : Z) :
  0 <= p < 14 ->
  Z.min 500 (Z.max 180 (fst (servo_pair 180 500 minutes_duties p)))
  <> Z.min 500 (Z.max 180 (snd (servo_pair 180 500 minutes_duties p))).
Proof.
  intros Hp.
  assert (p = 0 \/ p = 1 \/ p = 2 \/ p = 3 \/ p = 4 \/ p = 5 \/ p = 6 \/ p = 7 \/
          p = 8 \/ p = 9 \/ p = 10 \/ p = 11 \/ p = 12 \/ p = 13) as Hcases
    by lia.
  repeat (destruct Hcases as [-> | Hcases]; [vm_compute; discriminate|]).
  subst p. vm_compute. discriminate.
Qed.

Lemma write_trace_determines_number_witness :
  trace (snd (Segment.write
                (Segment.Make (ServoController_board 64 180 500)
                              minutes_duties) 30 hw0))
  = trace (snd (Segment.write
                  (Segment.Make (ServoController_board 64 180 500)
                                minutes_duties) 31 hw0))
  <-> 30 = 31.
Proof.
  apply (write_trace_determines_number 64 180 500 minutes_duties 30 31 hw0);
    first [lia | apply minutes_duties_distinct].
Defined.

(** ** The DS3231: binary-coded decimal *)

Lemma nibbles (b : Z) :
  0 <= b -> Z.shiftr b 4 = b / 16 /\ Z.land b 15 = b mod 16.
Proof.
  intros Hb. split.
  - now rewrite Z.shiftr_div_pow2 by lia.
  - change 15 with (Z.ones 4). now rewrite Z.land_ones by lia.
Qed.

Lemma decode_one_byte (b : Z) :
  0 <= b -> DS3231._decodeByte [b] = inr (b / 16 * 10 + b mod 16).
Proof.
  intros Hb. unfold DS3231._decodeByte.
  change (py_getitem [b] 0) with (Some b). cbv zeta.
  destruct (nibbles b Hb) as [-> ->]. reflexivity.
Qed.

Lemma encode_byte_value (num : Z) :
  Z.shiftl (num / 10) 4 + num mod 10 = 16 * (num / 10) + num mod 10.
Proof. rewrite Z.shiftl_mul_pow2 by lia. change (2 ^ 4) with 16. lia. Qed.

Lemma encode_run (num : Z) :
  DS3231._encodeByte num
  = if decide (0 <= num <= 159)
    then inr [16 * (num / 10) + num mod 10]
    else inl BytesOutOfRange.
Proof.
  unfold DS3231._encodeByte. cbv zeta. rewrite encode_byte_value.
  destruct (decide (0 <= num <= 159)) as [Hn | Hn].
  - rewrite decide_True by (Z.div_mod_to_equations; lia). reflexivity.
  - rewrite decide_False; [reflexivity|].
    intros Hb. apply Hn. Z.div_mod_to_equations. lia.
Qed.

Lemma decode_of_encode (num b : Z) :
  DS3231._encodeByte num = inr [b] -> DS3231._decodeByte [b] = inr num.
Proof.
  rewrite encode_run. case_decide as Hn; [|discriminate].
  intros [= <-]. rewrite decode_one_byte by (Z.div_mod_to_equations; lia).
  f_equal. Z.div_mod_to_equations. lia.
Qed.

(** X17.  [_encodeByte] succeeds exactly on 0..159, where it returns the one
    byte with the tens in the high nibble and the ones in the low nibble, and
    [_decodeByte] of that byte gives the number back; on any other number the
    [bytes(...)] constructor raises. *)
Theorem bcd_encode_then_decode (num : Z) :
  (0 <= num <= 159 ->
   exists b,
     DS3231._encodeByte num = inr [b] /\
     0 <= b <= 255 /\
     b = 16 * (num / 10) + num mod 10 /\
     DS3231._decodeByte [b] = inr num) /\
  (~ (0 <= num <= 159) -> DS3231._encodeByte num = inl BytesOutOfRange).
Proof.
  split.
  - intros Hn. exists (16 * (num / 10) + num mod 10).
    assert (DS3231._encodeByte num = inr [16 * (num / 10) + num mod 10])
      as Henc by (rewrite encode_run; now rewrite decide_True by exact Hn).
    split; [exact Henc|].
    split; [Z.div_mod_to_equations; lia|]. split; [reflexivity|].
    now apply decode_of_encode.
  - intros Hn. rewrite encode_run. now rewrite decide_False by exact Hn.
Qed.

(** X18.  [_decodeByte] then [_encodeByte]: a byte decodes to a number
    between 0 and 165, and encoding that number gives the byte back exactly
    when its low nibble is a decimal digit; a low nibble of 10..15 carries
    into the tens and the byte is not recovered. *)
Theorem bcd_decode_then_encode (b : Z) :
  0 <= b <= 255 ->
  exists v,
    DS3231._decodeByte [b] = inr v /\
    0 <= v <= 165 /\
    (DS3231._encodeByte v = inr [b] <-> b mod 16 <= 9).
Proof.
  intros Hb. exists (b / 16 * 10 + b mod 16).
  split; [now apply decode_one_byte|].
  split; [Z.div_mod_to_equations; lia|].
  unfold DS3231._encodeByte. cbv zeta. rewrite encode_byte_value.
  split.
  - intros Henc. case_decide as Hr; [|discriminate Henc].
    injection Henc as Henc. Z.div_mod_to_equations. lia.
  - intros Hlow.
    assert (16 * ((b / 16 * 10 + b mod 16) / 10)
            + (b / 16 * 10 + b mod 16) mod 10 = b) as ->
      by (Z.div_mod_to_equations; lia).
    now rewrite decide_True by lia.
Qed.

Lemma bcd_decode_then_encode_witness :
  exists v,
    DS3231._decodeByte [89] = inr v /\
    0 <= v <= 165 /\
    (DS3231._encodeByte v = inr [89] <-> 89 mod 16 <= 9).
Proof.
  apply (bcd_decode_then_encode 89). lia.
Defined.

(** ** The DS3231: setters and getters *)

(** X19.  The [hour] and [minute] setters never reach the bus.  A value
    outside 0..23 (0..59 for minutes) raises the [ValueError] of the guard;
    a value within it fails on [self._i2c], an attribute that [__init__]
    never assigns (it assigns [self.i2c]).  Either way the registers and the
    trace are left as they were. *)
Theorem ds3231_setters_never_write (self : DS3231.t) (value : Z) (h : hw) :
  DS3231.set_hour self value h
  = (inl (if decide (0 <= value <= 23) then NoSuchAttribute
          else HourOutOfRange), h) /\
  DS3231.set_minute self value h
  = (inl (if decide (0 <= value <= 59) then NoSuchAttribute
          else MinuteOutOfRange), h).
Proof.
  unfold DS3231.set_hour, DS3231.set_minute. split.
  - destruct (decide (0 <= value <= 23)) as [Hv | Hv].
    + rewrite decide_False by lia. reflexivity.
    + rewrite decide_True by lia. reflexivity.
  - destruct (decide (0 <= value <= 59)) as [Hv | Hv].
    + rewrite decide_False by lia. reflexivity.
    + rewrite decide_True by lia. reflexivity.
Qed.

Lemma read_field_run (self : DS3231.t) (reg : Z) (h : hw) :
  DS3231.read_field self reg h
  = (DS3231._decodeByte [peek h (DS3231.address self) reg],
     bus_read h (DS3231.address self) reg 1).
Proof.
  unfold DS3231.read_field. change (DS3231.getattr "i2c") with (@inr ds_error unit tt).
  cbv beta iota. unfold bus_data. change (seqZ 0 1) with [0]. cbn [map].
  now rewrite Z.add_0_r.
Qed.

(** X20.  The getters read back binary-coded decimal: when the registers
    0x02, 0x01 and 0x00 hold the bytes that [_encodeByte] gives for an hour,
    a minute and a second, the properties [hour], [minute] and [second]
    return those numbers, each by one read of one byte that leaves the
    registers as they are. *)
Theorem ds3231_getters_decode (self : DS3231.t) (hh mm ss : Z) (h : hw) :
  DS3231._encodeByte hh = inr [peek h (DS3231.address self) 2] ->
  DS3231._encodeByte mm = inr [peek h (DS3231.address self) 1] ->
  DS3231._encodeByte ss = inr [peek h (DS3231.address self) 0] ->
  DS3231.hour self h = (inr hh, bus_read h (DS3231.address self) 2 1) /\
  DS3231.minute self h = (inr mm, bus_read h (DS3231.address self) 1 1) /\
  DS3231.second self h = (inr ss, bus_read h (DS3231.address self) 0 1) /\
  regs (bus_read h (DS3231.address self) 2 1) = regs h.
Proof.
  intros Hh Hm Hs. unfold DS3231.hour, DS3231.minute, DS3231.second.
  rewrite !read_field_run.
  rewrite (decode_of_encode _ _ Hh), (decode_of_encode _ _ Hm),
    (decode_of_encode _ _ Hs).
  repeat split.
Qed.

Lemma ds3231_getters_decode_witness :
  DS3231.hour (DS3231.Make 104) (bus_write hw0 104 0 [48; 69; 18])
  = (inr 12, bus_read (bus_write hw0 104 0 [48; 69; 18]) 104 2 1) /\
  DS3231.minute (DS3231.Make 104) (bus_write hw0 104 0 [48; 69; 18])
  = (inr 45, bus_read (bus_write hw0 104 0 [48; 69; 18]) 104 1 1) /\
  DS3231.second (DS3231.Make 104) (bus_write hw0 104 0 [48; 69; 18])
  = (inr 30, bus_read (bus_write hw0 104 0 [48; 69; 18]) 104 0 1) /\
  regs (bus_read (bus_write hw0 104 0 [48; 69; 18]) 104 2 1)
  = regs (bus_write hw0 104 0 [48; 69; 18]).
Proof.
  apply (ds3231_getters_decode (DS3231.Make 104) 12 45 30
                               (bus_write hw0 104 0 [48; 69; 18]));
    vm_compute; reflexivity.
Defined.

(** ** From the clock board to the face *)

(** X21.  What [main.py] does with a reading, [minutes.write(clock_board.minute)]:
    when the minutes register holds a byte, the getter returns a number
    between 0 and 165, and writing it to a face on a ServoController with
    [0 < min_duty <= max_duty < 4095] succeeds exactly when that number is at
    most 99, which it is whenever both nibbles of the register are decimal
    digits. *)
Theorem clock_reading_written_to_face (self : DS3231.t) (a lo hi : Z)
        (cfg : list (Z * Z)) (h : hw) :
  0 < lo -> lo <= hi -> hi < 4095 ->
  0 <= peek h (DS3231.address self) 1 <= 255 ->
  exists v,
    DS3231.minute self h = (inr v, bus_read h (DS3231.address self) 1 1) /\
    0 <= v <= 165 /\
    (fst (Segment.write (Segment.Make (ServoController_board a lo hi) cfg) v
                        (bus_read h (DS3231.address self) 1 1)) = inr tt
     <-> v <= 99) /\
    (peek h (DS3231.address self) 1 / 16 <= 9 ->
     peek h (DS3231.address self) 1 mod 16 <= 9 -> v <= 99).
Proof.
  intros Hlo Hle Hhi Hb.
  exists (peek h (DS3231.address self) 1 / 16 * 10
          + peek h (DS3231.address self) 1 mod 16).
  set (b := peek h (DS3231.address self) 1) in *.
  assert (0 <= b / 16 * 10 + b mod 16 <= 165) as Hv
    by (Z.div_mod_to_equations; lia).
  split; [|split; [exact Hv|split]].
  - unfold DS3231.minute. rewrite read_field_run. fold b.
    now rewrite decode_one_byte by lia.
  - set (v := b / 16 * 10 + b mod 16) in *.
    set (h1 := bus_read h (DS3231.address self) 1 1).
    destruct (decide (v <= 99)) as [Hsmall | Hbig].
    + destruct (write_both_places a lo hi cfg v h1 Hlo Hle Hhi)
        as (ob & tb & h' & _ & _ & Hrun & _).
      { pose proof (tens_digit_of_two_digits v ltac:(lia)). lia. }
      rewrite Hrun. cbn [fst]. tauto.
    + destruct (write_ones_first a lo hi cfg v h1 Hlo Hle Hhi)
        as (ob & h2 & _ & _ & Hrun).
      rewrite Hrun.
      rewrite for_each_tens_no_digit
        by (apply digit_lookup_none; right;
            apply Z.div_le_lower_bound; lia).
      cbn [fst]. split; [discriminate | lia].
  - intros Hhigh Hlow. lia.
Qed.

Lemma clock_reading_written_to_face_witness :
  exists v,
    DS3231.minute (DS3231.Make 104) (bus_write hw0 104 1 [69])
    = (inr v, bus_read (bus_write hw0 104 1 [69])
                       (DS3231.address (DS3231.Make 104)) 1 1) /\
    0 <= v <= 165 /\
    (fst (Segment.write
            (Segment.Make (ServoController_board 64 180 500) minutes_duties) v
            (bus_read (bus_write hw0 104 1 [69])
                      (DS3231.address (DS3231.Make 104)) 1 1)) = inr tt
     <-> v <= 99) /\
    (peek (bus_write hw0 104 1 [69]) (DS3231.address (DS3231.Make 104)) 1 / 16
     <= 9 ->
     peek (bus_write hw0 104 1 [69]) (DS3231.address (DS3231.Make 104)) 1
       mod 16 <= 9 ->
     v <= 99).
Proof.
  apply (clock_reading_written_to_face (DS3231.Make 104) 64 180 500
                                       minutes_duties
                                       (bus_write hw0 104 1 [69]));
    first [lia | vm_compute; split; discriminate].
Defined.
